(** * Configuration resolvers and analysis launchers of the charara scripts

    A shallow embedding of the three configuration managers
    ([scripts/configuration_manager.py], [scripts/config_manager_01.py],
    [scripts/config_manager.py]) and of the two launchers
    ([scripts/run_analysis_terminal.py], [scripts/run_analysis_05.py]),
    followed by the properties the specification states about them.

    Python values are the trees that [json.load] and [yaml.safe_load]
    build; dictionaries are finite maps keyed by strings.  Code that
    touches the file system, the log or the standard output is written in
    a small state-and-exception monad over a [world].

    Conventions.  A file is the document its text denotes for the parser
    of the module that reads it, or unparseable; the text layer of
    [json] and [yaml] is library code and is not modelled.  Paths name
    files and directories by their spelling.  Messages keep the fixed text
    of the format string and the paths put into it; exception texts and
    numbers put into a message are left out.  A method that stores into
    [self.config] returns the instance after the call next to its
    outcome.  Every module is embedded in a [Module] of its file's name,
    its functions under their own names. *)

From Stdlib Require Import ZArith String Ascii List Bool Lia.
From stdpp Require Import gmap strings list fin_maps.

Set Warnings "-register-all,-clear-no-such-hyp".
Set Default Proof Using "Type".

Local Open Scope Z_scope.
Local Open Scope string_scope.
Local Open Scope list_scope.

(** ** Python values *)

(** The data model of a parsed JSON or YAML document.  A float keeps the
    decimal literal it was written as ([mantissa * 10 ^ exponent]); no
    arithmetic is ever done on one, only its truth value is asked for. *)
Inductive value : Type :=
| VNone
| VBool (b : bool)
| VInt (n : Z)
| VFloat (mantissa exponent : Z)
| VStr (s : string)
| VList (items : list value)
| VDict (entries : gmap string value).

(** Whether the double that Python builds from the literal [m * 10 ^ e] is
    zero: the literal is zero, or it is at most [2 ^ -1075], half the least
    positive double, and rounds to zero. *)
Definition float_is_zero (m e : Z) : bool :=
  Z.eqb m 0 || (Z.ltb e 0 && Z.leb (Z.abs m * 2 ^ 1075) (10 ^ (- e))).

(** Python's truth value of an object ([if x:], [not x]). *)
Definition truthy (v : value) : bool :=
  match v with
  | VNone => false
  | VBool b => b
  | VInt n => negb (Z.eqb n 0)
  | VFloat m e => negb (float_is_zero m e)
  | VStr s => negb (String.eqb s "")
  | VList l => match l with [] => false | _ => true end
  | VDict d => negb (bool_decide (d = ∅))
  end.

(** [isinstance(v, dict)]. *)
Definition is_dict (v : value) : bool :=
  match v with VDict _ => true | _ => false end.

(** A dictionary display [{k1: v1, ...}] with distinct keys. *)
Definition dict (items : list (string * value)) : value :=
  VDict (list_to_map items).

(** [s.split(sep)] for a one-character separator: never empty, an empty
    field for every separator that starts, ends or doubles. *)
Fixpoint split (sep : ascii) (s : string) : list string :=
  match s with
  | EmptyString => [EmptyString]
  | String c rest =>
      if Ascii.eqb c sep then EmptyString :: split sep rest
      else match split sep rest with
           | [] => [String c EmptyString]
           | field :: fields => String c field :: fields
           end
  end.

(** ** pathlib's pure POSIX paths *)

Module pathlib.

(** A parsed path: the root (["" ], ["/"] or ["//"]) and the components
    that are neither empty nor ["."]. *)
Record PurePath : Type := MkPath { root : string; parts : list string }.

Definition is_part (s : string) : bool :=
  negb (String.eqb s "") && negb (String.eqb s ".").

(** POSIX [splitroot]: exactly two leading slashes are kept, any other
    number of them is one. *)
Definition root_of (s : string) : string :=
  if String.prefix "//" s && negb (String.prefix "///" s) then "//"
  else if String.prefix "/" s then "/"
  else "".

(** [Path(s)]. *)
Definition Path (s : string) : PurePath :=
  {| root := root_of s; parts := filter is_part (split "/" s) |}.

(** [str(p)]. *)
Definition str (p : PurePath) : string :=
  match root p, parts p with
  | EmptyString, [] => "."
  | r, ps => r +:+ String.concat "/" ps
  end.

(** [p.is_absolute()]. *)
Definition is_absolute (p : PurePath) : bool := negb (String.eqb (root p) "").

(** [a / b]: an absolute right operand replaces the left one. *)
Definition truediv (a b : PurePath) : PurePath :=
  if is_absolute b then b
  else {| root := root a; parts := parts a ++ parts b |}.

(** [p.parent]. *)
Definition parent (p : PurePath) : PurePath :=
  {| root := root p; parts := removelast (parts p) |}.

(** A path string is in normal form when [str(Path(s))] gives it back. *)
Definition normal (s : string) : Prop := str (Path s) = s.

End pathlib.

Module posixpath.

Fixpoint ends_with_slash (s : string) : bool :=
  match s with
  | EmptyString => false
  | String c EmptyString => Ascii.eqb c "/"
  | String _ rest => ends_with_slash rest
  end.

(** [os.path.join(a, p)] on two strings. *)
Definition join (a p : string) : string :=
  if String.prefix "/" p then p
  else if String.eqb a "" || ends_with_slash a then a +:+ p
  else a +:+ "/" +:+ p.

End posixpath.

(** ** The world outside the interpreter *)

(** What the parser of the module at hand ([json.load], [yaml.safe_load])
    makes of a file's text: the document it denotes, or a parse error. *)
Inductive content : Type :=
| Document (tree : value)
| Garbage.

Inductive level : Type := DEBUG | INFO | WARNING | ERROR.

Definition levelno (l : level) : Z :=
  match l with DEBUG => 10 | INFO => 20 | WARNING => 30 | ERROR => 40 end.

(** [files] and [dirs] are the regular files and the directories that
    exist, keyed by path; [denied] are the paths at which the operating
    system refuses to create a directory or to open a file for writing
    (permissions, a read-only medium, a missing parent); [cwd] is the
    working directory of the process. *)
Record world : Type := MkWorld {
  files : gmap string content;
  dirs : gset string;
  denied : gset string;
  cwd : string;
  log : list (level * string);
  stdout : list string
}.

Definition set_files (f : gmap string content) (w : world) : world :=
  {| files := f; dirs := dirs w; denied := denied w; cwd := cwd w;
     log := log w; stdout := stdout w |}.

Definition set_dirs (d : gset string) (w : world) : world :=
  {| files := files w; dirs := d; denied := denied w; cwd := cwd w;
     log := log w; stdout := stdout w |}.

Definition set_cwd (d : string) (w : world) : world :=
  {| files := files w; dirs := dirs w; denied := denied w; cwd := d;
     log := log w; stdout := stdout w |}.


Definition add_log (r : level * string) (w : world) : world :=
  {| files := files w; dirs := dirs w; denied := denied w; cwd := cwd w;
     log := log w ++ [r]; stdout := stdout w |}.

Definition add_stdout (line : string) (w : world) : world :=
  {| files := files w; dirs := dirs w; denied := denied w; cwd := cwd w;
     log := log w; stdout := stdout w ++ [line] |}.

(** The exceptions the modelled code can meet.  All are subclasses of
    [Exception]; [SystemExit] is not and is the [Exit] outcome below. *)
Inductive exn : Type :=
| FileNotFoundError
| IsADirectoryError
| FileExistsError
| PermissionError
| JSONDecodeError
| YAMLError
| TypeError
| KeyError (key : string)
| AttributeError.

Inductive outcome (A : Type) : Type :=
| Ret (a : A)
| Raise (e : exn)
| Exit (code : Z).

Arguments Ret {A} a.
Arguments Raise {A} e.
Arguments Exit {A} code.

(** A computation: a function of the world that ends in a value, an
    exception or a process exit, and leaves a world. *)
Definition M (A : Type) : Type := world -> outcome A * world.

Definition ret {A} (a : A) : M A := fun w => (Ret a, w).

Definition bind {A B} (m : M A) (k : A -> M B) : M B :=
  fun w =>
    match m w with
    | (Ret a, w') => k a w'
    | (Raise e, w') => (Raise e, w')
    | (Exit c, w') => (Exit c, w')
    end.

Definition raise {A} (e : exn) : M A := fun w => (Raise e, w).

(** [sys.exit(code)]. *)
Definition sys_exit {A} (code : Z) : M A := fun w => (Exit code, w).

(** [try: body / except ...]: the handler answers [None] for an exception
    no clause matches, which then propagates.  A process exit is never
    caught. *)
Definition try_except {A} (body : M A) (handler : exn -> option (M A)) : M A :=
  fun w =>
    match body w with
    | (Raise e, w') =>
        match handler e with
        | Some h => h w'
        | None => (Raise e, w')
        end
    | r => r
    end.

Notation "x <- c1 ;; c2" := (bind c1 (fun x => c2))
  (at level 100, c1 at next level, right associativity).
Notation "c1 ;; c2" := (bind c1 (fun _ => c2))
  (at level 100, right associativity).

(** [for x in l: body(x)]. *)
Fixpoint for_each {A} (l : list A) (body : A -> M unit) : M unit :=
  match l with
  | [] => ret tt
  | x :: rest => body x ;; for_each rest body
  end.

(** A list display [[f(x1), f(x2), ...]], evaluated left to right. *)
Fixpoint map_m {A B} (f : A -> M B) (l : list A) : M (list B) :=
  match l with
  | [] => ret []
  | x :: rest => y <- f x ;; ys <- map_m f rest ;; ret (y :: ys)
  end.

(** [try: body / finally: cleanup]: the cleanup runs whatever the body
    did, and an exception of its own replaces the body's outcome. *)
Definition try_finally {A} (body : M A) (cleanup : M unit) : M A :=
  fun w =>
    match body w with
    | (r, w') =>
        match cleanup w' with
        | (Ret _, w'') => (r, w'')
        | (Raise e, w'') => (Raise e, w'')
        | (Exit c, w'') => (Exit c, w'')
        end
    end.

(** [print(line)]. *)
Definition print (line : string) : M unit := fun w => (Ret tt, add_stdout line w).

(** A call on a logger whose level is [threshold]. *)
Definition log_at (threshold : Z) (l : level) (msg : string) : M unit :=
  fun w => (Ret tt, if Z.ltb (levelno l) threshold then w else add_log (l, msg) w).

(** [os.path.exists(p)], [Path(p).exists()]. *)
Definition path_exists (p : string) (w : world) : bool :=
  match files w !! p with
  | Some _ => true
  | None => bool_decide (p ∈ dirs w)
  end.

Definition exists_ (p : string) : M bool := fun w => (Ret (path_exists p w), w).

(** [open(p, 'r')] and reading the whole file. *)
Definition open_read (p : string) : M content :=
  fun w =>
    match files w !! p with
    | Some c => (Ret c, w)
    | None =>
        (Raise (if bool_decide (p ∈ dirs w) then IsADirectoryError else FileNotFoundError), w)
    end.

(** [open(p, 'w')] and writing [c] as the whole file. *)
Definition open_write (p : string) (c : content) : M unit :=
  fun w =>
    if bool_decide (p ∈ denied w) then (Raise PermissionError, w)
    else if bool_decide (p ∈ dirs w) then (Raise IsADirectoryError, w)
    else (Ret tt, set_files (<[p := c]> (files w)) w).

(** [os.makedirs(p, exist_ok=True)], [Path(p).mkdir(parents=True, exist_ok=True)]. *)
Definition makedirs (p : string) : M unit :=
  fun w =>
    if bool_decide (p ∈ denied w) then (Raise PermissionError, w)
    else match files w !! p with
         | Some _ => (Raise FileExistsError, w)
         | None => (Ret tt, set_dirs ({[p]} ∪ dirs w) w)
         end.

(** [os.getcwd()] and [os.chdir(p)]. *)
Definition getcwd : M string := fun w => (Ret (cwd w), w).

Definition chdir (p : string) : M unit :=
  fun w =>
    if bool_decide (p ∈ dirs w) then (Ret tt, set_cwd p w)
    else (Raise FileNotFoundError, w).

(** [json.load(f)]. *)
Definition json_load (c : content) : M value :=
  match c with
  | Document v => ret v
  | Garbage => raise JSONDecodeError
  end.

(** [yaml.safe_load(f)]. *)
Definition yaml_safe_load (c : content) : M value :=
  match c with
  | Document v => ret v
  | Garbage => raise YAMLError
  end.

(** [v[k]] for a string [k]. *)
Definition getitem (v : value) (k : string) : M value :=
  match v with
  | VDict d =>
      match d !! k with
      | Some x => ret x
      | None => raise (KeyError k)
      end
  | _ => raise TypeError
  end.

(** [Path(v)]: only a string is accepted. *)
Definition as_path (v : value) : M pathlib.PurePath :=
  match v with
  | VStr s => ret (pathlib.Path s)
  | _ => raise TypeError
  end.

(** What the interpreter and its libraries supply and the scripts do not
    fix: the directory of the running script, the clock readings used in
    file names and in the default tree, [str()] on a value (the identity
    on strings), and what [getattr(logging, name)] gives as a level. *)
Record runtime : Type := MkRuntime {
  script_dir : string;
  today : string;
  stamp : string;
  py_str : value -> string;
  py_str_VStr : forall s, py_str (VStr s) = s;
  logging_level : string -> option Z
}.

(** [os.makedirs(v, exist_ok=True)] on a value. *)
Definition os_makedirs (v : value) : M unit :=
  match v with
  | VStr s => makedirs s
  | _ => raise TypeError
  end.

(** Opening [p] in append mode, as [logging.FileHandler(p)] does: an absent
    file is created empty, which no parser reads as a document. *)
Definition open_append (p : string) : M unit :=
  fun w =>
    if bool_decide (p ∈ denied w) then (Raise PermissionError, w)
    else if bool_decide (p ∈ dirs w) then (Raise IsADirectoryError, w)
    else match files w !! p with
         | Some _ => (Ret tt, w)
         | None => (Ret tt, set_files (<[p := Garbage]> (files w)) w)
         end.

(** A record appended to the log file [p]. *)
Definition append_line (p : string) : M unit :=
  fun w => (Ret tt, set_files (<[p := Garbage]> (files w)) w).

(** [os.path.join(a, p)] where [a] is a value: only a string is accepted. *)
Definition os_path_join (a : value) (p : string) : M string :=
  match a with
  | VStr s => ret (posixpath.join s p)
  | _ => raise TypeError
  end.

(** [range(start, stop)] as a list. *)
Definition range (start stop : Z) : list Z :=
  map (fun i => start + Z.of_nat i) (seq 0 (Z.to_nat (stop - start))).

(** An argument of [range]: an [int], or a [bool], which is one. *)
Definition index (v : value) : M Z :=
  match v with
  | VInt n => ret n
  | VBool b => ret (Z.b2z b)
  | _ => raise TypeError
  end.

(** The stop of [range(start, v + 1)]: the sum raises on anything but a
    number, and [range] refuses the float a float gives. *)
Definition index_plus_one (v : value) : M Z :=
  match v with
  | VInt n => ret (n + 1)
  | VBool b => ret (Z.b2z b + 1)
  | _ => raise TypeError
  end.

(** ** scripts/configuration_manager.py *)

Module configuration_manager.

(** The instance attributes that outlive [__init__]. *)
Record ConfigManager : Type := MkConfigManager {
  config_file : string;
  config : value
}.

Definition set_config (c : value) (self : ConfigManager) : ConfigManager :=
  {| config_file := config_file self; config := c |}.

(** The tree [create_default_config] builds. *)
Definition default_config : value :=
  dict [
    ("project", dict [("name", VStr "Lake Kariba Wind Analysis"); ("version", VStr "1.0")]);
    ("analysis_period", dict [("start_year", VInt 2015); ("end_year", VInt 2020)]);
    ("paths", dict [
       ("base_directory", VStr "/home/chawas/deployed/charara");
       ("data", dict [("wind_data", VStr ""); ("era5_data", VStr "")]);
       ("output", dict [("base", VStr "/home/chawas/deployed/charara/output")])])
  ].

Definition create_default_config (config_file : string) : M value :=
  open_write config_file (Document default_config) ;;
  print ("✓ Default configuration created at: " +:+ config_file) ;;
  ret default_config.

Definition load_config (config_file : string) : M value :=
  try_except
    (c <- open_read config_file ;;
     config <- json_load c ;;
     print ("✓ Configuration loaded from: " +:+ config_file) ;;
     ret config)
    (fun e =>
       match e with
       | FileNotFoundError =>
           Some (print ("✗ Configuration file not found: " +:+ config_file) ;;
                 print "Creating default configuration..." ;;
                 create_default_config config_file)
       | JSONDecodeError =>
           Some (print "✗ Error parsing JSON: JSONDecodeError" ;;
                 sys_exit 1)
       | _ => None
       end).

(** The loop of [get]: [v] is the object reached so far. *)
Fixpoint get_loop (v : value) (keys : list string) (default : value) : value :=
  match keys with
  | [] => v
  | k :: rest =>
      match v with
      | VDict d =>
          match d !! k with
          | Some x => get_loop x rest default
          | None => default
          end
      | _ => default
      end
  end.

Definition get (self : ConfigManager) (key : string) (default : value) : value :=
  get_loop (config self) (split "." key) default.

Definition get_path (self : ConfigManager) (key : string) : M value :=
  let path_value := get self key VNone in
  if negb (truthy path_value) then ret VNone
  else
    path <- as_path path_value ;;
    if negb (pathlib.is_absolute path) then
      base_dir <- as_path (get self "paths.base_directory" (VStr ".")) ;;
      ret (VStr (pathlib.str (pathlib.truediv base_dir path)))
    else ret (VStr (pathlib.str path)).

Definition setup_directories (self : ConfigManager) : M unit :=
  directories <- map_m (get_path self)
    ["scripts"; "output.base"; "output.maps"; "output.timeseries";
     "output.statistics"; "output.reports"; "logs"; "templates"] ;;
  for_each directories
    (fun directory => if truthy directory then os_makedirs directory else ret tt) ;;
  print "✓ All directories created/verified".

Section with_runtime.
Context (rt : runtime).

(** [getattr(logging, name)] as the [level] of [logging.basicConfig]. *)
Definition logging_getattr (name : value) : M Z :=
  match name with
  | VStr s =>
      match logging_level rt s with
      | Some n => ret n
      | None => raise AttributeError
      end
  | _ => raise TypeError
  end.

(** The file handler is opened before [basicConfig] runs; the first record
    goes to the file and to the console when the level lets it through. *)
Definition setup_logging (self : ConfigManager) : M unit :=
  log_dir <- get_path self "logs" ;;
  log_dir <- as_path log_dir ;;
  let log_file :=
    pathlib.str (pathlib.truediv log_dir
                   (pathlib.Path ("wind_analysis_" +:+ stamp rt +:+ ".log"))) in
  level <- logging_getattr (get self "debug.log_level" (VStr "INFO")) ;;
  open_append log_file ;;
  if Z.leb level (levelno INFO) then
    append_line log_file ;;
    log_at level INFO ("Logging initialized. Log file: " +:+ log_file)
  else ret tt.

Definition __init__ (config_file : option string) : M ConfigManager :=
  let config_file :=
    match config_file with
    | None => pathlib.truediv (pathlib.Path (script_dir rt)) (pathlib.Path "config.json")
    | Some f => pathlib.Path f
    end in
  config <- load_config (pathlib.str config_file) ;;
  let self := {| config_file := pathlib.str config_file; config := config |} in
  setup_directories self ;;
  setup_logging self ;;
  ret self.

End with_runtime.

(** [save_config]: no handler, a failing write propagates. *)
Definition save_config (self : ConfigManager) : M unit :=
  open_write (config_file self) (Document (config self)) ;;
  print ("✓ Configuration saved to: " +:+ config_file self).

(** [update_analysis_period] stores into the tree in place, so the
    instance after the call is part of the result whatever the outcome. *)
Definition update_analysis_period (start_year end_year : value) (self : ConfigManager)
    (w : world) : outcome unit * ConfigManager * world :=
  match config self with
  | VDict d =>
      match d !! "analysis_period" with
      | Some (VDict period) =>
          let period := <["end_year" := end_year]> (<["start_year" := start_year]> period) in
          let self := set_config (VDict (<["analysis_period" := VDict period]> d)) self in
          let (r, w) := save_config self w in
          (r, self, w)
      | Some _ => (Raise TypeError, self, w)
      | None => (Raise (KeyError "analysis_period"), self, w)
      end
  | _ => (Raise TypeError, self, w)
  end.

(** The module's global: [_config_manager] names an instance on the heap
    of the process, or is [None]. *)
Record globals : Type := MkGlobals {
  heap : list ConfigManager;
  _config_manager : option nat
}.

Definition get_config (rt : runtime) (config_file : option string) (g : globals)
    (w : world) : outcome nat * globals * world :=
  match _config_manager g with
  | None =>
      match __init__ rt config_file w with
      | (Ret self, w) =>
          let address := length (heap g) in
          (Ret address, {| heap := heap g ++ [self]; _config_manager := Some address |}, w)
      | (Raise e, w) => (Raise e, g, w)
      | (Exit c, w) => (Exit c, g, w)
      end
  | Some address => (Ret address, g, w)
  end.

(** [get_output_filename]: [subdirectory] is [None] or a string; no
    handler, and the year range is always put in. *)
Definition get_output_filename (rt : runtime) (self : ConfigManager)
    (base_name extension : string) (subdirectory : option string) : M string :=
  output_dir <-
    match subdirectory with
    | Some (String c s) => get_path self ("output." +:+ String c s)
    | _ => get_path self "output.base"
    end ;;
  let year_range :=
    py_str rt (get self "analysis_period.start_year" VNone) +:+ "_" +:+
    py_str rt (get self "analysis_period.end_year" VNone) in
  let filename := base_name +:+ "_" +:+ year_range +:+ "." +:+ extension in
  os_path_join output_dir filename.

End configuration_manager.

(** ** scripts/config_manager_01.py *)

Module config_manager_01.

Record ConfigManager : Type := MkConfigManager {
  config_file : string;
  config : value
}.

Definition set_config (c : value) (self : ConfigManager) : ConfigManager :=
  {| config_file := config_file self; config := c |}.

(** [setup_logging]: the module's logger, at level [INFO]. *)
Definition logger : level -> string -> M unit := log_at (levelno INFO).

Definition default_config : value :=
  dict [
    ("project", dict [
       ("name", VStr "Lake Kariba Wind Analysis");
       ("version", VStr "1.0.0");
       ("description", VStr "Wind analysis for floating solar panels at Lake Kariba")]);
    ("analysis_period", dict [("start_year", VInt 2015); ("end_year", VInt 2020)]);
    ("paths", dict [
       ("base_directory", VStr "/home/chawas/deployed/charara");
       ("data", dict [
          ("wind_data", VStr "/home/chawas/deployed/charara/data/era5_downloads/wind_data.nc");
          ("era5_data", VStr "/home/chawas/deployed/charara/data/era5_downloads/era5_data.nc")]);
       ("scripts", VStr "/home/chawas/deployed/charara/scripts");
       ("output", dict [
          ("base", VStr "/home/chawas/deployed/charara/output");
          ("maps", VStr "/home/chawas/deployed/charara/output/wind_maps");
          ("timeseries", VStr "/home/chawas/deployed/charara/output/timeseries");
          ("statistics", VStr "/home/chawas/deployed/charara/output/statistics");
          ("reports", VStr "/home/chawas/deployed/charara/output/reports")]);
       ("templates", VStr "/home/chawas/deployed/charara/templates");
       ("logs", VStr "/home/chawas/deployed/charara/logs")]);
    ("location", dict [
       ("site_name", VStr "Charara Floating Solar Site");
       ("latitude", VFloat (-1653) (-2));
       ("longitude", VFloat 2883 (-2));
       ("description", VStr "Northeastern Lake Kariba, Zimbabwe")]);
    ("analysis_parameters", dict [
       ("wind_speed_thresholds", dict [
          ("normal_operation", VFloat 80 (-1));
          ("caution", VFloat 120 (-1));
          ("danger", VFloat 150 (-1));
          ("emergency_shutdown", VFloat 180 (-1))]);
       ("map_extent", dict [
          ("min_lon", VFloat 265 (-1));
          ("max_lon", VFloat 295 (-1));
          ("min_lat", VFloat (-180) (-1));
          ("max_lat", VFloat (-160) (-1))]);
       ("charara_highlight_radius", VFloat 2 (-1));
       ("wind_speed_range", VList [VInt 0; VInt 10])]);
    ("plotting", dict [
       ("figure_size", VList [VInt 16; VInt 12]);
       ("dpi", VInt 300);
       ("font_size", dict [
          ("title", VInt 16); ("axis", VInt 12); ("legend", VInt 10); ("annotation", VInt 9)])])
  ].

Definition create_default_config (config_file : string) : M value :=
  try_except
    (open_write config_file (Document default_config) ;;
     logger INFO ("Default configuration created at: " +:+ config_file))
    (fun e => Some (logger ERROR "Could not save default config")) ;;
  ret default_config.

Definition load_config (config_file : string) : M value :=
  try_except
    (present <- exists_ config_file ;;
     if negb present then
       logger ERROR ("Config file not found: " +:+ config_file) ;;
       create_default_config config_file
     else
       c <- open_read config_file ;;
       config <- json_load c ;;
       logger INFO ("Configuration loaded from: " +:+ config_file) ;;
       ret config)
    (fun e =>
       match e with
       | JSONDecodeError =>
           Some (logger ERROR "Error parsing JSON: JSONDecodeError" ;;
                 create_default_config config_file)
       | _ =>
           Some (logger ERROR "Error loading config" ;;
                 create_default_config config_file)
       end).

Fixpoint get_loop (v : value) (keys : list string) (default : value) : value :=
  match keys with
  | [] => v
  | k :: rest =>
      match v with
      | VDict d =>
          match d !! k with
          | Some x => get_loop x rest default
          | None => default
          end
      | _ => default
      end
  end.

(** The handler of [get] is never entered for a string key. *)
Definition get (self : ConfigManager) (key : string) (default : value) : value :=
  get_loop (config self) (split "." key) default.

Section with_runtime.
Context (rt : runtime).

Definition get_path (self : ConfigManager) (key : string) : M value :=
  try_except
    (let path_value := get self key VNone in
     if negb (truthy path_value) then
       logger DEBUG ("Path key '" +:+ key +:+ "' returned None or empty") ;;
       ret VNone
     else
       let path := pathlib.Path (py_str rt path_value) in
       if negb (pathlib.is_absolute path) then
         let base_dir := get self "paths.base_directory" VNone in
         if truthy base_dir then
           base <- as_path base_dir ;;
           ret (VStr (pathlib.str (pathlib.truediv base path)))
         else
           logger WARNING ("Cannot make path absolute, no base directory: " +:+ key) ;;
           ret (VStr (pathlib.str path))
       else ret (VStr (pathlib.str path)))
    (fun e =>
       Some (logger ERROR ("Error getting path for key '" +:+ key +:+ "'") ;;
             ret VNone)).

(** The body of the loop of [setup_directories]. *)
Definition create_directory (directory : value) : M unit :=
  if truthy directory && match directory with VStr _ => true | _ => false end then
    try_except
      (os_makedirs directory ;;
       logger DEBUG ("Created/verified directory: " +:+ py_str rt directory))
      (fun e => Some (logger ERROR ("Error creating directory " +:+ py_str rt directory)))
  else
    logger WARNING ("Skipping invalid directory path: " +:+ py_str rt directory).

(** The list [setup_directories] builds before its loop. *)
Definition directories_of (self : ConfigManager) : M (list value) :=
  let base_dir := get self "paths.base_directory" VNone in
  let directories := if truthy base_dir then [base_dir] else [] in
  let output_base := get self "paths.output.base" VNone in
  directories <-
    (if truthy output_base then
       outputs <- map_m (get_path self)
         ["output.maps"; "output.timeseries"; "output.statistics"; "output.reports"] ;;
       ret (directories ++ output_base :: outputs)
     else ret directories) ;;
  other_dirs <- map_m (get_path self) ["scripts"; "logs"; "templates"] ;;
  ret (directories ++ filter (fun d => truthy d) other_dirs).

Definition setup_directories (self : ConfigManager) : M unit :=
  directories <- directories_of self ;;
  for_each directories create_directory ;;
  logger INFO "Directories setup complete".

Definition __init__ (config_file : option string) : M ConfigManager :=
  let config_file :=
    match config_file with
    | None => pathlib.truediv (pathlib.Path (script_dir rt)) (pathlib.Path "config.json")
    | Some f => pathlib.Path f
    end in
  config <- load_config (pathlib.str config_file) ;;
  let self := {| config_file := pathlib.str config_file; config := config |} in
  setup_directories self ;;
  ret self.

End with_runtime.

(** [save_config] answers [True], or [False] when the write failed. *)
Definition save_config (self : ConfigManager) : M bool :=
  try_except
    (open_write (config_file self) (Document (config self)) ;;
     logger INFO ("Configuration saved to: " +:+ config_file self) ;;
     ret true)
    (fun e => Some (logger ERROR "Error saving config" ;; ret false)).

(** [update_analysis_period] stores into the tree in place, so the
    instance after the call is part of the result whatever the outcome.
    On anything but a dictionary the membership test or the first store
    raises [TypeError] before a store has taken effect. *)
Definition update_analysis_period (start_year end_year : value) (self : ConfigManager)
    (w : world) : outcome unit * ConfigManager * world :=
  match config self with
  | VDict d =>
      let d :=
        match d !! "analysis_period" with
        | None => <["analysis_period" := VDict ∅]> d
        | Some _ => d
        end in
      let self := set_config (VDict d) self in
      match d !! "analysis_period" with
      | Some (VDict period) =>
          let period := <["end_year" := end_year]> (<["start_year" := start_year]> period) in
          let self := set_config (VDict (<["analysis_period" := VDict period]> d)) self in
          match save_config self w with
          | (Ret _, w) => (Ret tt, self, w)
          | (Raise e, w) => (Raise e, self, w)
          | (Exit c, w) => (Exit c, self, w)
          end
      | _ => (Raise TypeError, self, w)
      end
  | _ => (Raise TypeError, self, w)
  end.

Definition get_output_filename (rt : runtime) (self : ConfigManager)
    (base_name extension : string) (subdirectory : option string) : M value :=
  try_except
    (output_dir <-
       match subdirectory with
       | Some (String c s) => get_path rt self ("output." +:+ String c s)
       | _ => get_path rt self "output.base"
       end ;;
     if negb (truthy output_dir) then
       logger ERROR ("Cannot get output directory for " +:+
                     match subdirectory with Some s => s | None => "None" end) ;;
       ret VNone
     else
       let start_year := get self "analysis_period.start_year" (VStr "") in
       let end_year := get self "analysis_period.end_year" (VStr "") in
       let year_range :=
         if truthy start_year && truthy end_year
         then py_str rt start_year +:+ "_" +:+ py_str rt end_year
         else "" in
       let filename :=
         if negb (String.eqb year_range "")
         then base_name +:+ "_" +:+ year_range +:+ "." +:+ extension
         else base_name +:+ "." +:+ extension in
       full_path <- os_path_join output_dir filename ;;
       ret (VStr full_path))
    (fun e => Some (logger ERROR "Error generating output filename" ;; ret VNone)).

(** The fields [validate] requires, and the paths it resolves. *)
Definition required : list string :=
  ["project.name"; "analysis_period.start_year"; "analysis_period.end_year";
   "location.latitude"; "location.longitude"].

Definition path_fields : list string := ["paths.base_directory"; "output.base"].

(** The second loop of [validate]: the errors for the paths that do not
    resolve. *)
Fixpoint path_errors (rt : runtime) (self : ConfigManager) (fields : list string)
    : M (list string) :=
  match fields with
  | [] => ret []
  | field :: rest =>
      path <- get_path rt self field ;;
      errors <- path_errors rt self rest ;;
      ret (if truthy path then errors
           else ("Invalid or missing path: " +:+ field) :: errors)
  end.

Definition validate (rt : runtime) (self : ConfigManager) : M bool :=
  let errors :=
    flat_map (fun field =>
                if truthy (get self field VNone) then []
                else ["Missing required field: " +:+ field]) required in
  more <- path_errors rt self path_fields ;;
  let errors := errors ++ more in
  match errors with
  | [] =>
      logger INFO "Configuration validation passed" ;;
      ret true
  | _ =>
      logger ERROR "Configuration validation failed:" ;;
      for_each errors (fun error => logger ERROR ("  - " +:+ error)) ;;
      ret false
  end.

End config_manager_01.

(** ** scripts/config_manager.py *)

Module config_manager.

(** The instance attributes: the file, the merged tree and the paths
    [_setup_paths] derives from it. *)
Record ConfigManager : Type := MkConfigManager {
  config_file : string;
  config : value;
  base_dir : pathlib.PurePath;
  data_dir : pathlib.PurePath;
  era5_raw_dir : pathlib.PurePath;
  era5_processed_dir : pathlib.PurePath;
  wind_data_path : pathlib.PurePath;
  lake_shapefile_path : pathlib.PurePath;
  output_dir : pathlib.PurePath;
  maps_dir : pathlib.PurePath;
  timeseries_dir : pathlib.PurePath;
  statistics_dir : pathlib.PurePath;
  reports_dir : pathlib.PurePath;
  clustering_dir : pathlib.PurePath;
  validation_dir : pathlib.PurePath;
  scripts_dir : pathlib.PurePath;
  templates_dir : pathlib.PurePath;
  logs_dir : pathlib.PurePath
}.

(** [_setup_logger]: the logger named [config_manager], at level [INFO]. *)
Definition logger : level -> string -> M unit := log_at (levelno INFO).

Definition strings (l : list string) : value := VList (map VStr l).

Definition ints (l : list Z) : value := VList (map VInt l).

(** The default tree of [_load_config]; [created] is the day of the call. *)
Definition default_entries (created : string) : gmap string value :=
  list_to_map [
    ("project", dict [
       ("name", VStr "Lake Kariba Floating Solar Wind Analysis");
       ("version", VStr "2.0");
       ("description", VStr "Enhanced wind analysis for floating solar feasibility");
       ("author", VStr "Wind Analysis Team");
       ("created", VStr created)]);
    ("analysis_period", dict [
       ("start_year", VInt 2015);
       ("end_year", VInt 2020);
       ("years", ints [2015; 2016; 2017; 2018; 2019; 2020])]);
    ("location", dict [
       ("site_name", VStr "Charara Floating Solar Site");
       ("latitude", VFloat (-1653) (-2));
       ("longitude", VFloat 2883 (-2));
       ("region", VStr "Lake Kariba, Zimbabwe-Zambia border");
       ("elevation", VInt 485)]);
    ("wind_analysis", dict [
       ("variables", strings ["u10"; "v10"; "t2m"; "sp"; "d2m"; "blh"]);
       ("wind_speed_bins", ints [0; 2; 5; 8; 12; 20]);
       ("direction_bins", VInt 16);
       ("seasons", dict [
          ("summer", ints [12; 1; 2]);
          ("autumn", ints [3; 4; 5]);
          ("winter", ints [6; 7; 8]);
          ("spring", ints [9; 10; 11])]);
       ("percentiles", ints [5; 25; 50; 75; 95; 99])]);
    ("era5", dict [
       ("dataset", VStr "reanalysis-era5-single-levels");
       ("variables", strings [
          "10m_u_component_of_wind"; "10m_v_component_of_wind"; "2m_temperature";
          "surface_pressure"; "2m_dewpoint_temperature"; "boundary_layer_height"]);
       ("area", VList [VFloat (-100) (-1); VFloat 260 (-1); VFloat (-180) (-1); VFloat 300 (-1)]);
       ("grid_resolution", VList [VFloat 25 (-2); VFloat 25 (-2)]);
       ("time_step", VStr "hourly")]);
    ("paths", dict [
       ("base_directory", VStr "/home/chawas/deployed/charara");
       ("data", dict [
          ("era5_raw", VStr "data/era5_raw");
          ("era5_processed", VStr "data/era5_processed");
          ("wind_data", VStr "data/wind_data.nc");
          ("lake_shapefile", VStr "data/shapefiles/lake_kariba.shp");
          ("topography", VStr "data/topography")]);
       ("output", dict [
          ("base", VStr "output");
          ("maps", VStr "output/maps");
          ("timeseries", VStr "output/timeseries");
          ("statistics", VStr "output/statistics");
          ("reports", VStr "output/reports");
          ("clustering", VStr "output/clustering");
          ("validation", VStr "output/validation")]);
       ("scripts", VStr "scripts");
       ("templates", VStr "templates");
       ("logs", VStr "logs")]);
    ("visualization", dict [
       ("colormaps", dict [
          ("wind_speed", VStr "viridis");
          ("temperature", VStr "plasma");
          ("pressure", VStr "cividis");
          ("direction", VStr "hsv")]);
       ("figure_size", ints [12; 8]);
       ("dpi", VInt 150);
       ("font_size", VInt 12);
       ("style", VStr "seaborn-v0_8-darkgrid")]);
    ("clustering", dict [
       ("n_clusters", VInt 4);
       ("features", strings ["wind_speed"; "wind_direction"; "temperature"]);
       ("algorithm", VStr "kmeans");
       ("random_state", VInt 42)]);
    ("reporting", dict [
       ("format", VStr "html");
       ("include_sections", strings ["executive_summary"; "methodology"; "results"; "conclusions"]);
       ("generate_pdf", VBool true);
       ("email_report", VBool false)])
  ].

Definition default_config (created : string) : value := VDict (default_entries created).

(** One round of the merge loop of [_load_config]: [section.update(entries)]
    when both sides are dictionaries, a plain store otherwise. *)
Definition merge_entry (key : string) (v : value) (config : gmap string value)
    : gmap string value :=
  match config !! key, v with
  | Some (VDict section), VDict entries => <[key := VDict (entries ∪ section)]> config
  | _, _ => <[key := v]> config
  end.

(** [for key, value in user_config.items(): ...] over a copy of the defaults. *)
Definition merge (default user_config : gmap string value) : gmap string value :=
  map_fold merge_entry default user_config.

(** [user_config.items()]: only a dictionary has the method. *)
Definition items (v : value) : M (gmap string value) :=
  match v with
  | VDict d => ret d
  | _ => raise AttributeError
  end.

Definition _save_default_config (config_file : string) (config : value) : M unit :=
  try_except
    (makedirs (pathlib.str (pathlib.parent (pathlib.Path config_file))) ;;
     open_write config_file (Document config) ;;
     logger INFO ("Created default configuration at: " +:+ config_file))
    (fun e => Some (logger ERROR "Error saving default config")).

Section with_runtime.
Context (rt : runtime).

(** The first candidate that exists, as the loop of
    [_get_default_config_path] returns it. *)
Fixpoint first_existing (candidates : list pathlib.PurePath) : M (option pathlib.PurePath) :=
  match candidates with
  | [] => ret None
  | path :: rest =>
      present <- exists_ (pathlib.str path) ;;
      if present then ret (Some path) else first_existing rest
  end.

Definition possible_paths : list pathlib.PurePath :=
  [pathlib.Path "config/kariba_config.yaml";
   pathlib.Path "../config/kariba_config.yaml";
   pathlib.Path "/home/chawas/deployed/charara/config/kariba_config.yaml";
   pathlib.truediv
     (pathlib.truediv (pathlib.parent (pathlib.Path (script_dir rt))) (pathlib.Path "config"))
     (pathlib.Path "kariba_config.yaml")].

Definition _get_default_config_path : M pathlib.PurePath :=
  found <- first_existing possible_paths ;;
  match found with
  | Some path => ret path
  | None =>
      let default_path := pathlib.Path "config/kariba_config.yaml" in
      makedirs (pathlib.str (pathlib.parent default_path)) ;;
      ret default_path
  end.

Definition _load_config (config_file : string) : M value :=
  let default_config := default_config (today rt) in
  present <- exists_ config_file ;;
  merged <-
    (if present then
       try_except
         (c <- open_read config_file ;;
          user_config <- yaml_safe_load c ;;
          if truthy user_config then
            entries <- items user_config ;;
            let config := merge (default_entries (today rt)) entries in
            logger INFO ("Loaded configuration from " +:+ config_file) ;;
            ret (Some (VDict config))
          else
            logger WARNING ("Config file is empty: " +:+ config_file) ;;
            ret None)
         (fun e => Some (logger ERROR "Error loading config file" ;; ret None))
     else ret None) ;;
  match merged with
  | Some config => ret config
  | None =>
      _save_default_config config_file default_config ;;
      ret default_config
  end.

End with_runtime.

(** [p / v]: the right operand must be a string. *)
Definition div_value (p : pathlib.PurePath) (v : value) : M pathlib.PurePath :=
  match v with
  | VStr s => ret (pathlib.truediv p (pathlib.Path s))
  | _ => raise TypeError
  end.

Definition _setup_paths (config_file : string) (config : value) : M ConfigManager :=
  paths <- getitem config "paths" ;;
  base_directory <- getitem paths "base_directory" ;;
  base_dir <- as_path base_directory ;;
  data_paths <- getitem paths "data" ;;
  let data_dir := pathlib.truediv base_dir (pathlib.Path "data") in
  era5_raw <- getitem data_paths "era5_raw" ;;
  era5_raw_dir <- div_value base_dir era5_raw ;;
  era5_processed <- getitem data_paths "era5_processed" ;;
  era5_processed_dir <- div_value base_dir era5_processed ;;
  wind_data <- getitem data_paths "wind_data" ;;
  wind_data_path <- div_value base_dir wind_data ;;
  lake_shapefile <- getitem data_paths "lake_shapefile" ;;
  lake_shapefile_path <- div_value base_dir lake_shapefile ;;
  output_paths <- getitem paths "output" ;;
  base <- getitem output_paths "base" ;;
  output_dir <- div_value base_dir base ;;
  maps <- getitem output_paths "maps" ;;
  maps_dir <- div_value base_dir maps ;;
  timeseries <- getitem output_paths "timeseries" ;;
  timeseries_dir <- div_value base_dir timeseries ;;
  statistics <- getitem output_paths "statistics" ;;
  statistics_dir <- div_value base_dir statistics ;;
  reports <- getitem output_paths "reports" ;;
  reports_dir <- div_value base_dir reports ;;
  clustering <- getitem output_paths "clustering" ;;
  clustering_dir <- div_value base_dir clustering ;;
  validation <- getitem output_paths "validation" ;;
  validation_dir <- div_value base_dir validation ;;
  scripts <- getitem paths "scripts" ;;
  scripts_dir <- div_value base_dir scripts ;;
  templates <- getitem paths "templates" ;;
  templates_dir <- div_value base_dir templates ;;
  logs <- getitem paths "logs" ;;
  logs_dir <- div_value base_dir logs ;;
  ret {| config_file := config_file; config := config;
         base_dir := base_dir; data_dir := data_dir;
         era5_raw_dir := era5_raw_dir; era5_processed_dir := era5_processed_dir;
         wind_data_path := wind_data_path; lake_shapefile_path := lake_shapefile_path;
         output_dir := output_dir; maps_dir := maps_dir;
         timeseries_dir := timeseries_dir; statistics_dir := statistics_dir;
         reports_dir := reports_dir; clustering_dir := clustering_dir;
         validation_dir := validation_dir; scripts_dir := scripts_dir;
         templates_dir := templates_dir; logs_dir := logs_dir |}.

(** The list [_create_directories] walks. *)
Definition directories (self : ConfigManager) : list pathlib.PurePath :=
  [data_dir self; era5_raw_dir self; era5_processed_dir self; output_dir self;
   maps_dir self; timeseries_dir self; statistics_dir self; reports_dir self;
   clustering_dir self; validation_dir self; logs_dir self].

(** No handler around [mkdir]: the first failure leaves the loop. *)
Definition _create_directories (self : ConfigManager) : M unit :=
  for_each (directories self) (fun directory => makedirs (pathlib.str directory)) ;;
  logger INFO "Created all necessary directories".

Definition __init__ (rt : runtime) (config_file : option string) : M ConfigManager :=
  config_file <-
    match config_file with
    | None => _get_default_config_path rt
    | Some f => ret (pathlib.Path f)
    end ;;
  let config_file := pathlib.str config_file in
  config <- _load_config rt config_file ;;
  self <- _setup_paths config_file config ;;
  _create_directories self ;;
  logger INFO ("Configuration loaded from: " +:+ config_file) ;;
  project <- getitem config "project" ;;
  name <- getitem project "name" ;;
  logger INFO ("Project: " +:+ py_str rt name) ;;
  ret self.

(** The loop of [get]: [dict.get] answers [None] for a missing key, and a
    final [None] gives way to the default. *)
Fixpoint get_loop (v : value) (keys : list string) (default : value) : value :=
  match keys with
  | [] => match v with VNone => default | _ => v end
  | k :: rest =>
      match v with
      | VDict d => get_loop (match d !! k with Some x => x | None => VNone end) rest default
      | _ => default
      end
  end.

Definition get (self : ConfigManager) (key : string) (default : value) : value :=
  get_loop (config self) (split "." key) default.

(** The module-level [get_config]: a new manager on every call. *)
Definition get_config (rt : runtime) (config_file : option string) : M value :=
  cm <- __init__ rt config_file ;;
  ret (config cm).

(** The properties [start_year], [end_year] and [years]. *)
Definition start_year (self : ConfigManager) : M value :=
  period <- getitem (config self) "analysis_period" ;;
  getitem period "start_year".

Definition end_year (self : ConfigManager) : M value :=
  period <- getitem (config self) "analysis_period" ;;
  getitem period "end_year".

Definition years (self : ConfigManager) : M (list Z) :=
  first <- start_year self ;;
  last <- end_year self ;;
  stop <- index_plus_one last ;;
  start <- index first ;;
  ret (range start stop).

(** [save_config_copy]: [output_path] is [None] or a path string; no
    handler around the directory and the write. *)
Definition save_config_copy (self : ConfigManager) (output_path : option string)
    : M pathlib.PurePath :=
  let output_path :=
    match output_path with
    | None => pathlib.truediv (output_dir self) (pathlib.Path "config_backup.yaml")
    | Some p => pathlib.Path p
    end in
  makedirs (pathlib.str (pathlib.parent output_path)) ;;
  open_write (pathlib.str output_path) (Document (config self)) ;;
  logger INFO ("Configuration backup saved to: " +:+ pathlib.str output_path) ;;
  ret output_path.

End config_manager.

(** ** The launchers *)

(** How a child process started by [subprocess] ends for the launcher:
    it exits with a return code after writing its output, the user
    interrupts the wait, or starting it fails.  Nothing bounds the wait.
    [text] tells whether all the child wrote is text in the encoding of
    the launcher; when it is not, [output] holds the lines before the first
    byte that is not. *)
Inductive completion : Type :=
| Exited (output : list string) (text : bool) (returncode : Z)
| Interrupted
| Failed (e : exn).

(** A child process: what it does to the world and how it ends. *)
Definition child : Type := world -> completion * world.

Fixpoint repeat_string (s : string) (n : nat) : string :=
  match n with
  | O => ""
  | S n' => s +:+ repeat_string s n'
  end.

(** ["=" * 80]. *)
Definition rule : string := repeat_string "=" 80.

(** The exit status of a script that ends in [sys.exit(main())]: an
    uncaught exception ends the interpreter with status 1. *)
Definition exit_status (r : outcome Z) : Z :=
  match r with
  | Ret code => code
  | Raise _ => 1
  | Exit code => code
  end.

Module run_analysis_terminal.

Definition venv_python : string := "/home/chawas/deployed/deployed_env/bin/python3".
Definition analysis_script : string :=
  "/home/chawas/deployed/charara/scripts/enhanced_wind_analysis.py".

Definition main (analysis : child) : M Z :=
  print rule ;;
  print "LAKE KARIBA WIND ANALYSIS - TERMINAL LAUNCHER" ;;
  print rule ;;
  venv <- exists_ venv_python ;;
  if negb venv then
    print ("❌ Virtual environment not found: " +:+ venv_python) ;;
    ret 1
  else
    script <- exists_ analysis_script ;;
    if negb script then
      print ("❌ Analysis script not found: " +:+ analysis_script) ;;
      ret 1
    else
      print ("✅ Using: " +:+ venv_python) ;;
      print ("✅ Script: " +:+ analysis_script) ;;
      chdir "/home/chawas/deployed/charara" ;;
      print rule ;;
      print "STARTING ANALYSIS..." ;;
      print rule ;;
      fun w =>
        match analysis w with
        | (Exited output text returncode, w) =>
            (for_each output print ;;
             print rule ;;
             if Z.eqb returncode 0 then
               print "✅ ANALYSIS COMPLETED!" ;;
               ret 0
             else
               print "❌ ANALYSIS FAILED" ;;
               ret 1) w
        | (Interrupted, w) => (print "⏹ Interrupted" ;; ret 1) w
        | (Failed e, w) => (print "❌ Error" ;; ret 1) w
        end.

(** The world in which [main] starts the child, when it gets that far:
    the banner and the two paths are printed and the process is in the
    project directory. *)
Definition start (w : world) : world :=
  add_stdout rule
    (add_stdout "STARTING ANALYSIS..."
       (add_stdout rule
          (set_cwd "/home/chawas/deployed/charara"
             (add_stdout ("✅ Script: " +:+ analysis_script)
                (add_stdout ("✅ Using: " +:+ venv_python)
                   (add_stdout rule
                      (add_stdout "LAKE KARIBA WIND ANALYSIS - TERMINAL LAUNCHER"
                         (add_stdout rule w)))))))).

(** Running the file as a script. *)
Definition script (analysis : child) (w : world) : Z * world :=
  let (r, w) := main analysis w in (exit_status r, w).

End run_analysis_terminal.

Module run_analysis_05.

Definition VENV_PYTHON : string := "/home/chawas/deployed/deployed_env/bin/python3".
Definition ANALYSIS_SCRIPT : string :=
  "/home/chawas/deployed/charara/scripts/enhanced_wind_analysis.py".
Definition PROJECT_DIR : string := "/home/chawas/deployed/charara".

Definition run_analysis (analysis : child) : M Z :=
  print rule ;;
  print "LAKE KARIBA WIND ANALYSIS - STANDALONE RUNNER" ;;
  print rule ;;
  venv <- exists_ VENV_PYTHON ;;
  if negb venv then
    print ("❌ Virtual environment Python not found: " +:+ VENV_PYTHON) ;;
    print "Create virtual environment:" ;;
    print "cd /home/chawas/deployed" ;;
    print "python3 -m venv deployed_env" ;;
    ret 1
  else
    script <- exists_ ANALYSIS_SCRIPT ;;
    if negb script then
      print ("❌ Analysis script not found: " +:+ ANALYSIS_SCRIPT) ;;
      print ("Expected at: " +:+ ANALYSIS_SCRIPT) ;;
      ret 1
    else
      print ("✅ Virtual environment: " +:+ VENV_PYTHON) ;;
      print ("✅ Analysis script: " +:+ ANALYSIS_SCRIPT) ;;
      print "✅ Matplotlib backend: Agg" ;;
      original_dir <- getcwd ;;
      chdir PROJECT_DIR ;;
      try_finally
        (print rule ;;
         print "STARTING ANALYSIS..." ;;
         print rule ;;
         fun w =>
           match analysis w with
           | (Exited output true returncode, w) =>
               (for_each output print ;;
                print rule ;;
                if Z.eqb returncode 0 then
                  print "✅ ANALYSIS COMPLETED SUCCESSFULLY!" ;;
                  print ("Outputs are in: " +:+ PROJECT_DIR +:+ "/output") ;;
                  ret 0
                else
                  print "❌ ANALYSIS FAILED WITH EXIT CODE" ;;
                  ret 1) w
           | (Exited output false returncode, w) =>
               (* the loop over [process.stdout] raises [UnicodeDecodeError],
                  which the [except Exception] clause answers *)
               (for_each output print ;;
                print "❌ Unexpected error" ;;
                ret 1) w
           | (Interrupted, w) => (print "⏹ Analysis interrupted by user." ;; ret 1) w
           | (Failed e, w) => (print "❌ Unexpected error" ;; ret 1) w
           end)
        (chdir original_dir).

(** The world in which [run_analysis] starts the child, when it gets that
    far. *)
Definition start (w : world) : world :=
  add_stdout rule
    (add_stdout "STARTING ANALYSIS..."
       (add_stdout rule
          (set_cwd PROJECT_DIR
             (add_stdout "✅ Matplotlib backend: Agg"
                (add_stdout ("✅ Analysis script: " +:+ ANALYSIS_SCRIPT)
                   (add_stdout ("✅ Virtual environment: " +:+ VENV_PYTHON)
                      (add_stdout rule
                         (add_stdout "LAKE KARIBA WIND ANALYSIS - STANDALONE RUNNER"
                            (add_stdout rule w))))))))).

(** Running the file as a script: the working directory is set first. *)
Definition script (analysis : child) (w : world) : Z * world :=
  let (r, w) := (chdir "/home/chawas/deployed/charara" ;; run_analysis analysis) w in
  (exit_status r, w).

End run_analysis_05.

(** ** The specification's dotted-key lookup *)

(** The walk the specification describes: the segments are taken one at a
    time; [Some v] is the value reached after the last one, [None] says
    that on the way the current value was not a mapping or the next
    segment was not one of its keys. *)
Inductive walk : value -> list string -> option value -> Prop :=
| walk_end v :
    walk v [] (Some v)
| walk_into d k x rest r :
    d !! k = Some x -> walk x rest r -> walk (VDict d) (k :: rest) r
| walk_no_key d k rest :
    d !! k = None -> walk (VDict d) (k :: rest) None
| walk_no_mapping v k rest :
    is_dict v = false -> walk v (k :: rest) None.

(** What a lookup answers after a walk that ended in [r]. *)
Definition answer (r : option value) (default : value) : value :=
  match r with
  | Some v => v
  | None => default
  end.

(** The same, when a null at the end of the walk counts as missing. *)
Definition answer_not_none (r : option value) (default : value) : value :=
  match r with
  | Some VNone => default
  | Some v => v
  | None => default
  end.

(** ** The specification's overlay *)

(** The merge policy of the specification for one top-level key, given
    what the default tree and the loaded file hold under it: a key the file
    lacks keeps its default; a mapping over a mapping updates the default
    mapping's entries (the file's entries win, the others stay); anything
    else replaces the default wholesale. *)
Definition overlay (default_value user_value : option value) : option value :=
  match user_value with
  | None => default_value
  | Some (VDict entries) =>
      match default_value with
      | Some (VDict section) => Some (VDict (entries ∪ section))
      | _ => user_value
      end
  | Some _ => user_value
  end.

(** ** Predicates of the statements *)

(** [os.makedirs(p, exist_ok=True)] succeeds in [w]: the path is not
    refused and is not a regular file. *)
Definition creatable (w : world) (p : string) : bool :=
  negb (bool_decide (p ∈ denied w))
  && match files w !! p with Some _ => false | None => true end.

(** [open(p, 'w')] succeeds in [w]. *)
Definition writable (w : world) (p : string) : bool :=
  negb (bool_decide (p ∈ denied w)) && negb (bool_decide (p ∈ dirs w)).

(** [c in s] for a character. *)
Fixpoint has_char (c : ascii) (s : string) : bool :=
  match s with
  | EmptyString => false
  | String a rest => Ascii.eqb a c || has_char c rest
  end.

(** What is known of every part of a parsed path. *)
Definition good_part (x : string) : Prop := x <> "" /\ has_char "/" x = false.

(** ** Worlds and instances used as concrete inputs *)

Definition empty_world : world :=
  {| files := ∅; dirs := ∅; denied := ∅; cwd := "/"; log := []; stdout := [] |}.

(** An interpreter whose [str()] is only asked about strings and whose
    [logging] module has the standard level names. *)
Definition standard_runtime : runtime :=
  {| script_dir := "/home/chawas/deployed/charara/scripts";
     today := "2024-03-01";
     stamp := "20240301_120000";
     py_str := fun v => match v with VStr s => s | _ => "<object>" end;
     py_str_VStr := fun s => eq_refl;
     logging_level := fun name =>
       if String.eqb name "DEBUG" then Some 10
       else if String.eqb name "INFO" then Some 20
       else if String.eqb name "WARNING" then Some 30
       else if String.eqb name "ERROR" then Some 40
       else if String.eqb name "CRITICAL" then Some 50
       else None |}.

(** A world with one file. *)
Definition world_with (path : string) (c : content) : world :=
  set_files (<[path := c]> ∅) empty_world.


(** The value a computation returned, if it returned. *)
Definition returned {A} (r : outcome A * world) : option A :=
  match fst r with
  | Ret a => Some a
  | _ => None
  end.

(** The walk as a function, for concrete trees. *)
Fixpoint walk_result (v : value) (keys : list string) : option value :=
  match keys with
  | [] => Some v
  | k :: rest =>
      match v with
      | VDict d =>
          match d !! k with
          | Some x => walk_result x rest
          | None => None
          end
      | _ => None
      end
  end.

(** A YAML file that stores a key with a null value. *)
Definition null_note_world : world :=
  world_with "/etc/kariba.yaml" (Document (dict [("note", VNone)])).

(** A world in which the launchers find the interpreter, the analysis
    script and the project directory. *)
Definition ready_world : world :=
  set_dirs {[run_analysis_05.PROJECT_DIR]}
    (set_files (<[run_analysis_05.VENV_PYTHON := Garbage]>
                  (<[run_analysis_05.ANALYSIS_SCRIPT := Garbage]> ∅))
       empty_world).

(** A child that prints nothing, touches nothing and exits with [c]. *)
Definition exits_with (c : Z) : child := fun w => (Exited [] true c, w).


(** A JSON file that only names the log directory. *)
Definition logs_only_world : world :=
  world_with "/etc/wind.json" (Document (dict [("logs", VStr "/tmp/wind-logs")])).

(** A process in which [get_config] has not been called yet. *)
Definition fresh_globals : configuration_manager.globals :=
  {| configuration_manager.heap := []; configuration_manager._config_manager := None |}.

(** The first call of [get_config] in that process. *)
Definition first_call : outcome nat * configuration_manager.globals * world :=
  configuration_manager.get_config standard_runtime (Some "/etc/wind.json")
    fresh_globals logs_only_world.

(** A configuration file whose text does not parse. *)
Definition malformed_world : world := world_with "/etc/wind.json" Garbage.





(** An instance of [config_manager_01.py] with a tree of its own, about
    to be saved. *)
Definition edited_instance : config_manager_01.ConfigManager :=
  {| config_manager_01.config_file := "/etc/wind.json";
     config_manager_01.config :=
       dict [("analysis_period", dict [("start_year", VInt 2001); ("end_year", VInt 2002)]);
             ("location", dict [("site_name", VStr "Charara")]);
             ("notes", VList [VNone; VBool true; VFloat 25 (-2)])] |}.




(** The scenario of the specification: a file that only sets the first
    year of the analysis period. *)
Definition start_year_only : gmap string value :=
  {[ "analysis_period" := dict [("start_year", VInt 2018)] ]}.

Definition start_year_only_world : world :=
  world_with "/etc/kariba.yaml" (Document (VDict start_year_only)).




(** A JSON file with a base directory, an absolute path written with a
    trailing slash and a relative path written with a doubled slash. *)
Definition unnormalised_paths : value :=
  dict [("paths", dict [("base_directory", VStr "/srv/wind")]);
        ("logs", VStr "/var/log/wind/");
        ("scripts", VStr "tools//bin")].

Definition unnormalised_json_run : outcome configuration_manager.ConfigManager * world :=
  configuration_manager.__init__ standard_runtime (Some "/etc/wind.json")
    (world_with "/etc/wind.json" (Document unnormalised_paths)).

Definition unnormalised_01_run : outcome config_manager_01.ConfigManager * world :=
  config_manager_01.__init__ standard_runtime (Some "/etc/wind.json")
    (world_with "/etc/wind.json" (Document unnormalised_paths)).

(** An instance whose tree holds a relative path in normal form. *)
Definition maps_instance : config_manager_01.ConfigManager :=
  {| config_manager_01.config_file := "/etc/wind.json";
     config_manager_01.config :=
       dict [("paths", dict [("base_directory", VStr "/srv/wind");
                             ("maps", VStr "output/maps")])] |}.

(** A machine on which the launchers can start the analysis, with the
    process in the root directory. *)
Definition launch_world : world :=
  set_dirs ({["/"]} ∪ {[run_analysis_05.PROJECT_DIR]}) ready_world.

(** The instance [config_manager.py] builds from the file that only sets
    the first year. *)
Definition start_year_only_run : outcome config_manager.ConfigManager * world :=
  config_manager.__init__ standard_runtime (Some "/etc/kariba.yaml") start_year_only_world.

(** An instance of [config_manager_01.py] that holds the module's own
    default tree. *)
Definition default_instance : config_manager_01.ConfigManager :=
  {| config_manager_01.config_file := "/etc/wind.json";
     config_manager_01.config := config_manager_01.default_config |}.

(** An instance whose tree has every field [validate] asks for, the
    output directory at the top level. *)
Definition valid_instance : config_manager_01.ConfigManager :=
  {| config_manager_01.config_file := "/etc/wind.json";
     config_manager_01.config :=
       dict [("project", dict [("name", VStr "Wind")]);
             ("analysis_period", dict [("start_year", VInt 2015); ("end_year", VInt 2020)]);
             ("location", dict [("latitude", VFloat (-1653) (-2));
                                ("longitude", VFloat 2883 (-2))]);
             ("paths", dict [("base_directory", VStr "/srv/wind")]);
             ("output", dict [("base", VStr "output")])] |}.

(** An instance of [configuration_manager.py] that holds the module's own
    default tree. *)
Definition default_json_instance : configuration_manager.ConfigManager :=
  {| configuration_manager.config_file := "/etc/wind.json";
     configuration_manager.config := configuration_manager.default_config |}.

(** A YAML file that moves the output directory and says nothing of the
    directories under it. *)
Definition output_base_only_world : world :=
  world_with "/etc/kariba.yaml"
    (Document (dict [("paths", dict [("output", dict [("base", VStr "results")])])])).

(** An instance of [config_manager.py] whose directories all lie under
    [/srv], and the first pass of [_create_directories] for it on an empty
    machine. *)
Definition served_instance : config_manager.ConfigManager :=
  {| config_manager.config_file := "/etc/kariba.yaml";
     config_manager.config := config_manager.default_config "2024-03-01";
     config_manager.base_dir := pathlib.Path "/srv";
     config_manager.data_dir := pathlib.Path "/srv/data";
     config_manager.era5_raw_dir := pathlib.Path "/srv/data/era5_raw";
     config_manager.era5_processed_dir := pathlib.Path "/srv/data/era5_processed";
     config_manager.wind_data_path := pathlib.Path "/srv/data/wind_data.nc";
     config_manager.lake_shapefile_path := pathlib.Path "/srv/data/lake_kariba.shp";
     config_manager.output_dir := pathlib.Path "/srv/output";
     config_manager.maps_dir := pathlib.Path "/srv/output/maps";
     config_manager.timeseries_dir := pathlib.Path "/srv/output/timeseries";
     config_manager.statistics_dir := pathlib.Path "/srv/output/statistics";
     config_manager.reports_dir := pathlib.Path "/srv/output/reports";
     config_manager.clustering_dir := pathlib.Path "/srv/output/clustering";
     config_manager.validation_dir := pathlib.Path "/srv/output/validation";
     config_manager.scripts_dir := pathlib.Path "/srv/scripts";
     config_manager.templates_dir := pathlib.Path "/srv/templates";
     config_manager.logs_dir := pathlib.Path "/srv/logs" |}.

Definition first_pass : outcome unit * world :=
  config_manager._create_directories served_instance empty_world.

(** An instance of [configuration_manager.py] with a tree of its own, and
    its save on an empty machine. *)
Definition edited_json_instance : configuration_manager.ConfigManager :=
  {| configuration_manager.config_file := "/etc/wind.json";
     configuration_manager.config :=
       dict [("analysis_period", dict [("start_year", VInt 2001); ("end_year", VInt 2002)]);
             ("logs", VStr "/var/log/wind")] |}.

Definition edited_json_save : outcome unit * world :=
  configuration_manager.save_config edited_json_instance empty_world.

(** ** Running computations *)

Lemma bind_Ret_inv {A B} (m : M A) (k : A -> M B) (w : world) (b : B) (w' : world) :
  bind m k w = (Ret b, w') ->
  exists a w1, m w = (Ret a, w1) /\ k a w1 = (Ret b, w').
Proof.
  unfold bind. destruct (m w) as [[a | e | c] w1]; intros H; try discriminate.
  exists a, w1. split; [reflexivity | exact H].
Qed.

Lemma bind_Ret {A B} (m : M A) (k : A -> M B) (w : world) (a : A) (w1 : world) :
  m w = (Ret a, w1) -> bind m k w = k a w1.
Proof. unfold bind. intros ->. reflexivity. Qed.

(** ** Dotted-key lookup (C4) *)

Lemma walk_total (v : value) (keys : list string) : exists r, walk v keys r.
Proof.
  revert v. induction keys as [| k rest IH]; intros v.
  - exists (Some v). constructor.
  - destruct v as [| b | n | m e | s | l | d];
      try (exists None; apply walk_no_mapping; reflexivity).
    destruct (d !! k) as [x |] eqn:Hk.
    + destruct (IH x) as [r Hr]. exists r. eapply walk_into; eassumption.
    + exists None. apply walk_no_key. exact Hk.
Qed.

Lemma walk_functional (v : value) (keys : list string) (r1 r2 : option value) :
  walk v keys r1 -> walk v keys r2 -> r1 = r2.
Proof.
  intros H1. revert r2.
  induction H1 as [v | d k x rest r Hk _ IH | d k rest Hk | v k rest Hv];
    intros r2 H2; inversion H2; subst; try reflexivity; try congruence.
  - apply IH. replace x with x0 by congruence. assumption.
  - discriminate.
  - discriminate.
Qed.

Lemma configuration_manager_get_loop_walk v keys default r :
  walk v keys r -> configuration_manager.get_loop v keys default = answer r default.
Proof.
  induction 1 as [v | d k x rest r Hk _ IH | d k rest Hk | v k rest Hv]; simpl.
  - reflexivity.
  - rewrite Hk. exact IH.
  - rewrite Hk. reflexivity.
  - destruct v; try reflexivity. discriminate.
Qed.

Lemma config_manager_01_get_loop_walk v keys default r :
  walk v keys r -> config_manager_01.get_loop v keys default = answer r default.
Proof.
  induction 1 as [v | d k x rest r Hk _ IH | d k rest Hk | v k rest Hv]; simpl.
  - reflexivity.
  - rewrite Hk. exact IH.
  - rewrite Hk. reflexivity.
  - destruct v; try reflexivity. discriminate.
Qed.

Lemma config_manager_get_loop_None keys default :
  config_manager.get_loop VNone keys default = default.
Proof. destruct keys; reflexivity. Qed.

Lemma config_manager_get_loop_walk v keys default r :
  walk v keys r -> config_manager.get_loop v keys default = answer_not_none r default.
Proof.
  induction 1 as [v | d k x rest r Hk _ IH | d k rest Hk | v k rest Hv]; simpl.
  - destruct v; reflexivity.
  - rewrite Hk. exact IH.
  - rewrite Hk. apply config_manager_get_loop_None.
  - destruct v; try reflexivity. discriminate.
Qed.

Lemma walk_result_spec (v : value) (keys : list string) :
  walk v keys (walk_result v keys).
Proof.
  revert v. induction keys as [| k rest IH]; intros v; simpl.
  - constructor.
  - destruct v as [| b | n | m e | s | l | d];
      try (apply walk_no_mapping; reflexivity).
    destruct (d !! k) as [x |] eqn:Hk.
    + eapply walk_into; [exact Hk | apply IH].
    + apply walk_no_key. exact Hk.
Qed.

(** C4, counterexample: for the instance [config_manager.py] builds from a
    file that stores ["note"] with a null value, the walk for ["note"]
    ends on that null, yet [get] answers the caller's default and not the
    value reached. *)
Lemma get_null_leaf_counterexample :
  option_map
    (fun self => (walk_result (config_manager.config self) (split "." "note"),
                  config_manager.get self "note" (VStr "fallback")))
    (returned (config_manager.__init__ standard_runtime (Some "/etc/kariba.yaml")
                 null_note_world))
  = Some (Some VNone, VStr "fallback").
Proof. vm_compute. reflexivity. Qed.

(** C4 (amended): [get] walks the period-separated segments one at a
    time and answers the caller's default as soon as the current value is
    not a mapping or the next segment is not one of its keys; otherwise
    [configuration_manager.py] and [config_manager_01.py] answer the value
    reached after the last segment, and [config_manager.py] answers it
    unless it is null, in which case it answers the default. *)
Theorem get_follows_walk :
  (forall (self : configuration_manager.ConfigManager) key default,
     exists r, walk (configuration_manager.config self) (split "." key) r /\
               configuration_manager.get self key default = answer r default) /\
  (forall (self : config_manager_01.ConfigManager) key default,
     exists r, walk (config_manager_01.config self) (split "." key) r /\
               config_manager_01.get self key default = answer r default) /\
  (forall (self : config_manager.ConfigManager) key default,
     exists r, walk (config_manager.config self) (split "." key) r /\
               config_manager.get self key default = answer_not_none r default).
Proof.
  repeat split; intros self key default.
  - destruct (walk_total (configuration_manager.config self) (split "." key)) as [r Hr].
    exists r. split; [exact Hr |].
    apply configuration_manager_get_loop_walk. exact Hr.
  - destruct (walk_total (config_manager_01.config self) (split "." key)) as [r Hr].
    exists r. split; [exact Hr |].
    apply config_manager_01_get_loop_walk. exact Hr.
  - destruct (walk_total (config_manager.config self) (split "." key)) as [r Hr].
    exists r. split; [exact Hr |].
    apply config_manager_get_loop_walk. exact Hr.
Qed.

(** ** The launchers (C9) *)

Lemma for_each_print (output : list string) (w : world) :
  exists w', for_each output print w = (Ret tt, w') /\
             files w' = files w /\ dirs w' = dirs w /\ cwd w' = cwd w.
Proof.
  revert w. induction output as [| line rest IH]; intros w; simpl.
  - exists w. repeat split.
  - unfold bind at 1. unfold print at 1.
    destruct (IH (add_stdout line w)) as (w' & -> & Hf & Hd & Hc).
    exists w'. repeat split; assumption.
Qed.









(** ** The module-level accessor (C10) *)

(** C10: [get_config] keeps one instance for the process.  When the first
    call has built a manager, the global names it, and every later call,
    whatever its [config_file] argument and whatever the files have become,
    returns the same instance and touches neither the globals nor the
    world. *)
Theorem get_config_singleton (rt : runtime) (config_file : option string)
    (g : configuration_manager.globals) (w : world)
    (address : nat) (g' : configuration_manager.globals) (w' : world) :
  configuration_manager._config_manager g = None ->
  configuration_manager.get_config rt config_file g w = (Ret address, g', w') ->
  (exists self,
      configuration_manager.__init__ rt config_file w = (Ret self, w') /\
      configuration_manager.heap g' !! address = Some self) /\
  (forall g2,
      configuration_manager._config_manager g2 = Some address ->
      forall other_file w2,
        configuration_manager.get_config rt other_file g2 w2 = (Ret address, g2, w2)) /\
  configuration_manager._config_manager g' = Some address.
Proof.
  intros Hnone Hcall. unfold configuration_manager.get_config in Hcall.
  rewrite Hnone in Hcall.
  destruct (configuration_manager.__init__ rt config_file w) as [[self | e | c] w1] eqn:Hinit;
    try discriminate.
  injection Hcall as <- <- <-. simpl. repeat split.
  - exists self. split; [reflexivity |].
    apply list_lookup_middle. reflexivity.
  - intros g2 Hg2 other_file w2. unfold configuration_manager.get_config.
    rewrite Hg2. reflexivity.
Qed.

Lemma triple_eta {A B C} (r : A * B * C) (a : A) :
  fst (fst r) = a -> r = (a, snd (fst r), snd r).
Proof. destruct r as [[a0 b] c]. simpl. intros ->. reflexivity. Qed.

Lemma first_call_returns : fst (fst first_call) = Ret 0%nat.
Proof. vm_compute. reflexivity. Qed.

Lemma get_config_singleton_witness :
  configuration_manager.get_config standard_runtime (Some "/srv/other.json")
    (snd (fst first_call)) empty_world
  = (Ret 0%nat, snd (fst first_call), empty_world).
Proof.
  destruct (get_config_singleton standard_runtime (Some "/etc/wind.json")
              fresh_globals logs_only_world 0%nat (snd (fst first_call)) (snd first_call)
              eq_refl (triple_eta first_call _ first_call_returns))
    as (_ & Hlater & Hglobal).
  apply Hlater. exact Hglobal.
Defined.

(** ** Malformed configuration files (C5) *)

Lemma create_default_config_01 (config_file : string) (w : world) :
  exists w',
    config_manager_01.create_default_config config_file w
      = (Ret config_manager_01.default_config, w') /\
    dirs w' = dirs w /\ denied w' = denied w /\
    exists records, log w' = log w ++ records.
Proof.
  unfold config_manager_01.create_default_config, try_except, bind, open_write,
    config_manager_01.logger, log_at, ret.
  destruct (bool_decide (config_file ∈ denied w)); simpl;
    [| destruct (bool_decide (config_file ∈ dirs w)); simpl];
    eexists; (split; [reflexivity |]); simpl; eauto.
Qed.

Lemma load_config_01_garbage (config_file : string) (w : world) :
  files w !! config_file = Some Garbage ->
  exists w',
    config_manager_01.load_config config_file w
      = (Ret config_manager_01.default_config, w') /\
    (ERROR, "Error parsing JSON: JSONDecodeError") ∈ log w'.
Proof.
  intros H.
  unfold config_manager_01.load_config, try_except.
  unfold bind at 1 2 3, exists_, path_exists, open_read. simpl.
  rewrite H. simpl. rewrite H. simpl.
  unfold bind, config_manager_01.logger, log_at. simpl.
  destruct (create_default_config_01 config_file
              (add_log (ERROR, "Error parsing JSON: JSONDecodeError") w))
    as (w' & -> & _ & _ & records & Hlog).
  exists w'. split; [reflexivity |].
  rewrite Hlog. simpl. rewrite !elem_of_app, list_elem_of_singleton. auto.
Qed.

Lemma save_default_config_returns (config_file : string) (c : value) (w : world) :
  exists w',
    config_manager._save_default_config config_file c w = (Ret tt, w') /\
    denied w' = denied w /\
    exists records, log w' = log w ++ records.
Proof.
  unfold config_manager._save_default_config, try_except, bind, makedirs, open_write,
    config_manager.logger, log_at.
  destruct (bool_decide (_ ∈ denied w)); simpl; [eauto |].
  destruct (files w !! _); simpl; [eauto |].
  destruct (bool_decide (config_file ∈ denied w)); simpl; [eauto |].
  destruct (bool_decide (config_file ∈ _)); simpl; eauto.
Qed.

Lemma load_config_yaml_garbage (rt : runtime) (config_file : string) (w : world) :
  files w !! config_file = Some Garbage ->
  exists w',
    config_manager._load_config rt config_file w
      = (Ret (config_manager.default_config (today rt)), w') /\
    (ERROR, "Error loading config file") ∈ log w'.
Proof.
  intros H.
  unfold config_manager._load_config, try_except, bind, exists_, path_exists, open_read,
    config_manager.logger, log_at.
  simpl. rewrite H. simpl. rewrite H. simpl.
  destruct (save_default_config_returns config_file
              (config_manager.default_config (today rt))
              (add_log (ERROR, "Error loading config file") w))
    as (w' & -> & _ & records & Hlog).
  exists w'. split; [reflexivity |].
  rewrite Hlog. simpl. rewrite !elem_of_app, list_elem_of_singleton. auto.
Qed.

Lemma load_config_json_garbage (config_file : string) (w : world) :
  files w !! config_file = Some Garbage ->
  configuration_manager.load_config config_file w
    = (Exit 1, add_stdout "✗ Error parsing JSON: JSONDecodeError" w).
Proof.
  intros H.
  unfold configuration_manager.load_config, try_except, bind, open_read.
  rewrite H. reflexivity.
Qed.

(** C5, counterexample: [configuration_manager.py] answers a malformed
    file by ending the process with status 1; no tree is returned. *)
Lemma malformed_json_exits_counterexample :
  fst (configuration_manager.load_config "/etc/wind.json" malformed_world) = Exit 1 /\
  fst (configuration_manager.__init__ standard_runtime (Some "/etc/wind.json")
         malformed_world) = Exit 1.
Proof. split; vm_compute; reflexivity. Qed.

(** C5 (amended): for a configuration file whose contents do not parse,
    [config_manager_01.py] and [config_manager.py] catch the parse error,
    log it at level ERROR and return the hardcoded default tree, without
    raising and without ending the process; [configuration_manager.py]
    prints the error and ends the process with status 1. *)
Theorem malformed_file_handling (rt : runtime) (config_file : string) (w : world) :
  files w !! config_file = Some Garbage ->
  (exists w',
      config_manager_01.load_config config_file w
        = (Ret config_manager_01.default_config, w') /\
      (ERROR, "Error parsing JSON: JSONDecodeError") ∈ log w') /\
  (exists w',
      config_manager._load_config rt config_file w
        = (Ret (config_manager.default_config (today rt)), w') /\
      (ERROR, "Error loading config file") ∈ log w') /\
  configuration_manager.load_config config_file w
    = (Exit 1, add_stdout "✗ Error parsing JSON: JSONDecodeError" w).
Proof.
  intros H. split; [| split].
  - apply load_config_01_garbage. exact H.
  - apply load_config_yaml_garbage. exact H.
  - apply load_config_json_garbage. exact H.
Qed.

Lemma malformed_file_handling_witness :
  (exists w',
      config_manager_01.load_config "/etc/wind.json" malformed_world
        = (Ret config_manager_01.default_config, w') /\
      (ERROR, "Error parsing JSON: JSONDecodeError") ∈ log w') /\
  (exists w',
      config_manager._load_config standard_runtime "/etc/wind.json" malformed_world
        = (Ret (config_manager.default_config (today standard_runtime)), w') /\
      (ERROR, "Error loading config file") ∈ log w') /\
  configuration_manager.load_config "/etc/wind.json" malformed_world
    = (Exit 1, add_stdout "✗ Error parsing JSON: JSONDecodeError" malformed_world).
Proof.
  apply (malformed_file_handling standard_runtime "/etc/wind.json" malformed_world).
  reflexivity.
Defined.

(** ** Directory creation (C6) *)

Lemma makedirs_creatable (w : world) (p : string) :
  creatable w p = true -> makedirs p w = (Ret tt, set_dirs ({[p]} ∪ dirs w) w).
Proof.
  unfold creatable, makedirs. destruct (bool_decide (p ∈ denied w)); simpl; [discriminate |].
  destruct (files w !! p); [discriminate | reflexivity].
Qed.

Lemma makedirs_refused (w : world) (p : string) :
  creatable w p = false -> exists e, makedirs p w = (Raise e, w).
Proof.
  unfold creatable, makedirs. destruct (bool_decide (p ∈ denied w)); simpl; [eauto |].
  destruct (files w !! p); [eauto | discriminate].
Qed.


Lemma creatable_ext (w w' : world) (p : string) :
  files w' = files w -> denied w' = denied w -> creatable w' p = creatable w p.
Proof. unfold creatable. intros -> ->. reflexivity. Qed.









Lemma creatable_set_dirs (d : gset string) (w : world) (p : string) :
  creatable (set_dirs d w) p = creatable w p.
Proof. reflexivity. Qed.


Lemma for_each_mkdir_created (pre : list pathlib.PurePath) (w : world) :
  (forall q, q ∈ pre -> creatable w (pathlib.str q) = true) ->
  exists w1,
    for_each pre (fun directory => makedirs (pathlib.str directory)) w = (Ret tt, w1) /\
    files w1 = files w /\ denied w1 = denied w /\ log w1 = log w /\
    (forall p, p ∈ dirs w1 <-> p ∈ dirs w \/ p ∈ map pathlib.str pre).
Proof.
  revert w. induction pre as [| d pre IH]; intros w Hpre.
  - exists w. simpl. repeat split; auto.
    intros [H | H]; [exact H |]. apply elem_of_nil in H. destruct H.
  - assert (Hd : creatable w (pathlib.str d) = true) by (apply Hpre; left).
    destruct (IH (set_dirs ({[pathlib.str d]} ∪ dirs w) w)) as (w1 & Hrun & Hf & Hden & Hlog & Hdirs).
    { intros q Hq. apply (Hpre q). right. exact Hq. }
    exists w1. simpl. rewrite (bind_Ret _ _ _ _ _ (makedirs_creatable _ _ Hd)).
    split; [exact Hrun |]. repeat split; try assumption.
    + intros Hp. apply Hdirs in Hp. simpl in Hp. rewrite elem_of_cons. set_solver.
    + intros Hp. apply Hdirs. simpl. rewrite elem_of_cons in Hp. set_solver.
Qed.







(** ** Saving and loading again (C7) *)


Lemma load_config_01_document (config_file : string) (v : value) (w : world) :
  files w !! config_file = Some (Document v) ->
  config_manager_01.load_config config_file w
    = (Ret v, add_log (INFO, "Configuration loaded from: " +:+ config_file) w).
Proof.
  intros H.
  unfold config_manager_01.load_config, try_except, bind, exists_, path_exists, open_read,
    config_manager_01.logger, log_at.
  simpl. rewrite H. simpl. rewrite H. reflexivity.
Qed.


Lemma pair_eta {A B} (r : A * B) (a : A) : fst r = a -> r = (a, snd r).
Proof. destruct r as [a0 b]. simpl. intros ->. reflexivity. Qed.



(** ** Updating the analysis period (C8) *)

Lemma split_start_year :
  split "." "analysis_period.start_year" = ["analysis_period"; "start_year"].
Proof. reflexivity. Qed.

Lemma split_end_year :
  split "." "analysis_period.end_year" = ["analysis_period"; "end_year"].
Proof. reflexivity. Qed.









(** ** The merge with the defaults (C1) *)

Lemma merge_lookup (default user_config : gmap string value) (key : string) :
  config_manager.merge default user_config !! key
    = overlay (default !! key) (user_config !! key).
Proof.
  unfold config_manager.merge. revert key.
  apply (map_fold_weak_ind
           (fun (r : gmap string value) (m : gmap string value) =>
              forall key, r !! key = overlay (default !! key) (m !! key))).
  - intros key. rewrite lookup_empty. reflexivity.
  - intros i x m r Hi IH key. unfold config_manager.merge_entry.
    destruct (decide (i = key)) as [-> | Hne].
    + rewrite lookup_insert_eq. rewrite (IH key), Hi. simpl.
      destruct (default !! key) as [[| b | n | mt e | s | l | section] |];
        destruct x; simpl; rewrite lookup_insert_eq; reflexivity.
    + rewrite (lookup_insert_ne m) by exact Hne.
      rewrite <- (IH key).
      destruct (r !! i) as [[| b | n | mt e | s | l | section] |];
        destruct x; rewrite lookup_insert_ne by exact Hne; reflexivity.
Qed.

Lemma load_config_yaml_document (rt : runtime) (config_file : string) (w : world)
    (document : value) :
  files w !! config_file = Some (Document document) ->
  exists w',
    config_manager._load_config rt config_file w
      = (Ret (match document with
              | VDict user_config =>
                  VDict (config_manager.merge (config_manager.default_entries (today rt))
                           user_config)
              | _ => config_manager.default_config (today rt)
              end), w').
Proof.
  intros H.
  unfold config_manager._load_config, try_except, bind, exists_, path_exists, open_read,
    config_manager.logger, log_at.
  simpl. rewrite H. simpl. rewrite H. simpl.
  destruct (truthy document) eqn:Htruthy; simpl.
  - destruct document as [| b | n | m e | s | l | d]; simpl;
      try (destruct (save_default_config_returns config_file
                       (config_manager.default_config (today rt))
                       (add_log (ERROR, "Error loading config file") w))
             as (w' & -> & _); eauto).
    eauto.
  - destruct (save_default_config_returns config_file
                (config_manager.default_config (today rt))
                (add_log (WARNING, "Config file is empty: " +:+ config_file) w))
      as (w' & -> & _).
    exists w'. destruct document as [| b | n | m e | s | l | d]; try reflexivity.
    simpl in Htruthy. apply negb_false_iff, bool_decide_eq_true_1 in Htruthy. subst d.
    unfold config_manager.merge. rewrite map_fold_empty. reflexivity.
Qed.

Lemma default_analysis_period (created : string) :
  config_manager.default_entries created !! "analysis_period"
    = Some (dict [("start_year", VInt 2015); ("end_year", VInt 2020);
                  ("years", config_manager.ints [2015; 2016; 2017; 2018; 2019; 2020])]).
Proof. reflexivity. Qed.

(** C1: in [config_manager.py] the tree [_load_config] returns for a file
    that holds a mapping is the one-level overlay of that mapping on the
    default tree: under every top-level key, a mapping in the file over a
    mapping in the defaults updates the default mapping's entries, any
    other value in the file replaces the default, and a key the file lacks
    keeps its default.  For the file that only holds
    [{"analysis_period": {"start_year": 2018}}] the merged tree has
    [analysis_period.start_year] 2018 and [analysis_period.end_year] 2020. *)
Theorem load_config_one_level_merge (rt : runtime) (config_file : string) (w : world)
    (user_config : gmap string value) :
  files w !! config_file = Some (Document (VDict user_config)) ->
  exists merged w',
    config_manager._load_config rt config_file w = (Ret (VDict merged), w') /\
    (forall key,
        merged !! key
          = overlay (config_manager.default_entries (today rt) !! key) (user_config !! key)) /\
    (user_config = start_year_only ->
     forall self : config_manager.ConfigManager,
       config_manager.config self = VDict merged ->
       config_manager.get self "analysis_period.start_year" VNone = VInt 2018 /\
       config_manager.get self "analysis_period.end_year" VNone = VInt 2020).
Proof.
  intros H.
  destruct (load_config_yaml_document rt config_file w _ H) as (w' & Hrun).
  exists (config_manager.merge (config_manager.default_entries (today rt)) user_config), w'.
  split; [exact Hrun |]. split; [apply merge_lookup |].
  intros -> self Hconfig. unfold config_manager.get. rewrite Hconfig.
  rewrite split_start_year, split_end_year. simpl.
  rewrite merge_lookup, default_analysis_period.
  split; reflexivity.
Qed.

Lemma load_config_one_level_merge_witness :
  exists merged w',
    config_manager._load_config standard_runtime "/etc/kariba.yaml" start_year_only_world
      = (Ret (VDict merged), w') /\
    forall self : config_manager.ConfigManager,
      config_manager.config self = VDict merged ->
      config_manager.get self "analysis_period.start_year" VNone = VInt 2018 /\
      config_manager.get self "analysis_period.end_year" VNone = VInt 2020.
Proof.
  destruct (load_config_one_level_merge standard_runtime "/etc/kariba.yaml"
              start_year_only_world start_year_only eq_refl)
    as (merged & w' & Hrun & _ & Hscenario).
  exists merged, w'. split; [exact Hrun |]. apply Hscenario. reflexivity.
Defined.

(** ** Keys the file does not set (C2) *)

Lemma setup_paths_config (config_file : string) (c : value) (w : world)
    (self : config_manager.ConfigManager) (w' : world) :
  config_manager._setup_paths config_file c w = (Ret self, w') ->
  config_manager.config self = c.
Proof.
  unfold config_manager._setup_paths. intros H.
  repeat (apply bind_Ret_inv in H; destruct H as (? & ? & _ & H)).
  unfold ret in H. injection H as <- _. reflexivity.
Qed.

Lemma init_yaml_config (rt : runtime) (path : string) (w : world)
    (self : config_manager.ConfigManager) (w' : world) :
  config_manager.__init__ rt (Some path) w = (Ret self, w') ->
  exists w1,
    config_manager._load_config rt (pathlib.str (pathlib.Path path)) w
      = (Ret (config_manager.config self), w1).
Proof.
  unfold config_manager.__init__. intros H.
  apply bind_Ret_inv in H. destruct H as (p & w0 & Hp & H).
  unfold ret in Hp. injection Hp as <- <-.
  apply bind_Ret_inv in H. destruct H as (c & w1 & Hload & H).
  apply bind_Ret_inv in H. destruct H as (self0 & w2 & Hpaths & H).
  apply setup_paths_config in Hpaths.
  repeat (apply bind_Ret_inv in H; destruct H as (? & ? & _ & H)).
  unfold ret in H. injection H as <- _.
  exists w1. rewrite Hpaths. exact Hload.
Qed.






(** ** Path resolution (C3) *)

Lemma append_cons (x : ascii) (a b : string) : String x a +:+ b = String x (a +:+ b).
Proof. reflexivity. Qed.

Lemma append_assoc (a b c : string) : (a +:+ b) +:+ c = a +:+ (b +:+ c).
Proof.
  induction a as [| x a IH]; [reflexivity |].
  rewrite !append_cons, IH. reflexivity.
Qed.

Lemma append_nil_r (a : string) : a +:+ "" = a.
Proof.
  induction a as [| x a IH]; [reflexivity |].
  rewrite append_cons, IH. reflexivity.
Qed.

Lemma split_not_nil (sep : ascii) (s : string) : split sep s <> [].
Proof.
  induction s as [| c s IH]; simpl; [discriminate |].
  destruct (Ascii.eqb c sep); [discriminate |].
  destruct (split sep s); [contradiction | discriminate].
Qed.

Lemma split_fields (sep : ascii) (s x : string) :
  x ∈ split sep s -> has_char sep x = false.
Proof.
  revert x. induction s as [| c s IH]; simpl; intros x Hx.
  - apply list_elem_of_singleton in Hx as ->. reflexivity.
  - destruct (Ascii.eqb c sep) eqn:Hc.
    + apply elem_of_cons in Hx as [-> | Hx]; [reflexivity | apply IH; exact Hx].
    + destruct (split sep s) as [| field fields] eqn:Hs.
      * apply list_elem_of_singleton in Hx as ->. simpl. rewrite Hc. reflexivity.
      * apply elem_of_cons in Hx as [-> | Hx].
        -- simpl. rewrite Hc. simpl. apply IH. left.
        -- apply IH. right. exact Hx.
Qed.

Lemma parts_good (s x : string) : x ∈ pathlib.parts (pathlib.Path s) -> good_part x.
Proof.
  simpl. intros Hx. apply list_elem_of_filter in Hx as [Hpart Hx].
  split.
  - intros ->. exact Hpart.
  - apply (split_fields _ _ _ Hx).
Qed.

Lemma no_slash_end (x : string) : has_char "/" x = false -> posixpath.ends_with_slash x = false.
Proof.
  induction x as [| c x IH]; simpl; [reflexivity |].
  intros H. apply orb_false_iff in H as [Hc Hx].
  destruct x; [exact Hc | apply IH; exact Hx].
Qed.

Lemma append_not_nil_r (a b : string) : b <> "" -> a +:+ b <> "".
Proof. destruct a; [intros H; exact H | discriminate]. Qed.

Lemma ends_with_slash_app (a b : string) :
  b <> "" -> posixpath.ends_with_slash (a +:+ b) = posixpath.ends_with_slash b.
Proof.
  intros Hb. induction a as [| c a IH]; [reflexivity |].
  rewrite append_cons. simpl.
  destruct (a +:+ b) eqn:Hab; [destruct (append_not_nil_r a b Hb Hab) | exact IH].
Qed.

Lemma concat_good (ps : list string) :
  ps <> [] -> (forall x, x ∈ ps -> good_part x) ->
  String.concat "/" ps <> "" /\ posixpath.ends_with_slash (String.concat "/" ps) = false.
Proof.
  induction ps as [| x ps IH]; [congruence |]. intros _ Hgood.
  assert (Hx : good_part x) by (apply Hgood; left).
  destruct ps as [| y ps].
  - simpl. destruct Hx as [Hne Hslash]. split; [exact Hne | apply no_slash_end; exact Hslash].
  - destruct IH as [Hne Hend]; [discriminate | intros z Hz; apply Hgood; right; exact Hz |].
    change (String.concat "/" (x :: y :: ps))
      with (x +:+ "/" +:+ String.concat "/" (y :: ps)).
    split.
    + apply append_not_nil_r. discriminate.
    + rewrite ends_with_slash_app by discriminate.
      rewrite (ends_with_slash_app "/" _ Hne). exact Hend.
Qed.

Lemma concat_app (ps qs : list string) :
  ps <> [] -> qs <> [] ->
  String.concat "/" (ps ++ qs) = String.concat "/" ps +:+ "/" +:+ String.concat "/" qs.
Proof.
  intros Hps Hqs. induction ps as [| x ps IH]; [congruence |].
  destruct ps as [| y ps].
  - simpl. destruct qs; [congruence | reflexivity].
  - change (String.concat "/" ((x :: y :: ps) ++ qs))
      with (x +:+ "/" +:+ String.concat "/" ((y :: ps) ++ qs)).
    rewrite IH by discriminate.
    change (String.concat "/" (x :: y :: ps))
      with (x +:+ "/" +:+ String.concat "/" (y :: ps)).
    rewrite !append_assoc. reflexivity.
Qed.

Lemma root_of_cases (s : string) :
  pathlib.root_of s = "" \/ pathlib.root_of s = "/" \/ pathlib.root_of s = "//".
Proof.
  unfold pathlib.root_of.
  destruct (String.prefix "//" s && negb (String.prefix "///" s)); [auto |].
  destruct (String.prefix "/" s); auto.
Qed.

Lemma relative_no_prefix (s : string) :
  pathlib.is_absolute (pathlib.Path s) = false -> String.prefix "/" s = false.
Proof.
  unfold pathlib.is_absolute, pathlib.Path, pathlib.root_of. simpl.
  destruct (String.prefix "//" s && negb (String.prefix "///" s)); [discriminate |].
  destruct (String.prefix "/" s); [discriminate | reflexivity].
Qed.

Lemma str_with_parts (r : string) (ps : list string) :
  ps <> [] ->
  pathlib.str {| pathlib.root := r; pathlib.parts := ps |} = r +:+ String.concat "/" ps.
Proof.
  intros Hps. unfold pathlib.str. simpl.
  destruct r; [| reflexivity]. destruct ps; [congruence | reflexivity].
Qed.

Lemma join_of_normal (B P : string) :
  pathlib.is_absolute (pathlib.Path P) = false ->
  pathlib.normal P -> pathlib.normal B -> P <> "." -> B <> "." ->
  pathlib.str (pathlib.truediv (pathlib.Path B) (pathlib.Path P)) = posixpath.join B P.
Proof.
  intros Hrel HP HB HPdot HBdot. unfold pathlib.normal in HP, HB.
  pose proof (relative_no_prefix P Hrel) as Hprefix.
  unfold pathlib.truediv. rewrite Hrel.
  unfold posixpath.join. rewrite Hprefix.
  assert (HrootP : pathlib.root (pathlib.Path P) = "").
  { unfold pathlib.is_absolute in Hrel. apply negb_false_iff in Hrel.
    apply String.eqb_eq in Hrel. exact Hrel. }
  (* the parts of P *)
  destruct (pathlib.parts (pathlib.Path P)) as [| p ps] eqn:HpartsP.
  { exfalso. apply HPdot. rewrite <- HP. unfold pathlib.str.
    rewrite HrootP, HpartsP. reflexivity. }
  assert (HPeq : P = String.concat "/" (p :: ps)).
  { rewrite <- HP at 1. unfold pathlib.str. rewrite HrootP, HpartsP. reflexivity. }
  (* the parts of B *)
  assert (HgoodB : forall x, x ∈ pathlib.parts (pathlib.Path B) -> good_part x)
    by (intros x; apply parts_good).
  change (pathlib.root (pathlib.Path B)) with (pathlib.root_of B).
  destruct (pathlib.parts (pathlib.Path B)) as [| b bs] eqn:HpartsB.
  - (* B is a bare root *)
    assert (HBeq : B = pathlib.root_of B).
    { rewrite <- HB at 1. unfold pathlib.str.
      change (pathlib.root (pathlib.Path B)) with (pathlib.root_of B). rewrite HpartsB.
      destruct (pathlib.root_of B) eqn:Hr; [| simpl; rewrite append_nil_r; reflexivity].
      exfalso. apply HBdot. rewrite <- HB. unfold pathlib.str.
      change (pathlib.root (pathlib.Path B)) with (pathlib.root_of B).
      rewrite Hr, HpartsB. reflexivity. }
    simpl app. rewrite str_with_parts by discriminate.
    rewrite <- HPeq.
    destruct (root_of_cases B) as [Hr | [Hr | Hr]]; rewrite Hr in *.
    + exfalso. apply HBdot. rewrite <- HB. unfold pathlib.str.
      change (pathlib.root (pathlib.Path B)) with (pathlib.root_of B).
      rewrite <- HBeq at 1. rewrite HpartsB. rewrite HBeq. reflexivity.
    + rewrite HBeq. reflexivity.
    + rewrite HBeq. reflexivity.
  - (* B has parts *)
    destruct (concat_good (b :: bs)) as [HneB HendB]; [discriminate | exact HgoodB |].
    assert (HBeq : B = pathlib.root_of B +:+ String.concat "/" (b :: bs)).
    { rewrite <- HB at 1. unfold pathlib.str.
      change (pathlib.root (pathlib.Path B)) with (pathlib.root_of B). rewrite HpartsB.
      destruct (pathlib.root_of B); reflexivity. }
    rewrite str_with_parts by discriminate.
    rewrite concat_app by discriminate.
    rewrite <- HPeq.
    assert (Hend : posixpath.ends_with_slash B = false).
    { rewrite HBeq. rewrite ends_with_slash_app by exact HneB. exact HendB. }
    assert (Hne : String.eqb B "" = false).
    { apply String.eqb_neq. rewrite HBeq. apply append_not_nil_r. exact HneB. }
    rewrite Hne, Hend. simpl orb. cbv iota.
    rewrite HBeq at 2. rewrite !append_assoc. reflexivity.
Qed.

Lemma get_path_json_resolves (self : configuration_manager.ConfigManager)
    (key : string) (w : world) (P B : string) :
  P <> "" ->
  configuration_manager.get self key VNone = VStr P ->
  configuration_manager.get self "paths.base_directory" (VStr ".") = VStr B ->
  configuration_manager.get_path self key w
    = (Ret (VStr (pathlib.str (pathlib.truediv (pathlib.Path B) (pathlib.Path P)))), w).
Proof.
  intros HP Hkey Hbase. unfold configuration_manager.get_path.
  rewrite Hkey, Hbase.
  assert (Ht : truthy (VStr P) = true)
    by (simpl; apply String.eqb_neq in HP; rewrite HP; reflexivity).
  rewrite Ht. simpl negb. cbv iota.
  unfold bind, as_path, ret, pathlib.truediv.
  destruct (pathlib.is_absolute (pathlib.Path P)); reflexivity.
Qed.

Lemma get_path_01_resolves (rt : runtime) (self : config_manager_01.ConfigManager)
    (key : string) (w : world) (P B : string) :
  P <> "" -> B <> "" ->
  config_manager_01.get self key VNone = VStr P ->
  config_manager_01.get self "paths.base_directory" VNone = VStr B ->
  config_manager_01.get_path rt self key w
    = (Ret (VStr (pathlib.str (pathlib.truediv (pathlib.Path B) (pathlib.Path P)))), w).
Proof.
  intros HP HB Hkey Hbase. unfold config_manager_01.get_path.
  rewrite Hkey, Hbase, py_str_VStr.
  assert (Ht : forall s, s <> "" -> truthy (VStr s) = true)
    by (intros s Hs; simpl; apply String.eqb_neq in Hs; rewrite Hs; reflexivity).
  rewrite (Ht P HP), (Ht B HB). simpl negb. cbv iota.
  unfold try_except, bind, as_path, ret, pathlib.truediv.
  destruct (pathlib.is_absolute (pathlib.Path P)); reflexivity.
Qed.

(** C3, counterexample: both accessors return the path as [pathlib]
    prints it.  An absolute path stored with a trailing slash comes back
    without it, so not unchanged; a relative path stored with a doubled
    slash comes back with a single one, which is not what [os.path.join]
    gives for the same two strings. *)
Lemma get_path_normalises_counterexample :
  option_map
    (fun self =>
       (configuration_manager.get self "logs" VNone,
        fst (configuration_manager.get_path self "logs" empty_world),
        configuration_manager.get self "scripts" VNone,
        fst (configuration_manager.get_path self "scripts" empty_world)))
    (returned unnormalised_json_run)
  = Some (VStr "/var/log/wind/", Ret (VStr "/var/log/wind"),
          VStr "tools//bin", Ret (VStr "/srv/wind/tools/bin")) /\
  option_map
    (fun self =>
       (config_manager_01.get self "logs" VNone,
        fst (config_manager_01.get_path standard_runtime self "logs" empty_world),
        config_manager_01.get self "scripts" VNone,
        fst (config_manager_01.get_path standard_runtime self "scripts" empty_world)))
    (returned unnormalised_01_run)
  = Some (VStr "/var/log/wind/", Ret (VStr "/var/log/wind"),
          VStr "tools//bin", Ret (VStr "/srv/wind/tools/bin")) /\
  posixpath.join "/srv/wind" "tools//bin" = "/srv/wind/tools//bin".
Proof. repeat split; vm_compute; reflexivity. Qed.

(** C3 (amended): for a non-empty path string [P] stored under the key
    and a non-empty base directory string [B], [get_path] returns the
    string [pathlib] prints for [Path(B) / Path(P)], without touching the
    world.  For an absolute [P] that is [str(Path(P))], which is [P] itself
    when [P] is in normal form (no repeated or trailing slash, no ["."]
    segment); for a relative [P] it is [os.path.join(B, P)] when [B] and
    [P] are in normal form and neither is ["."]. *)
Theorem get_path_resolution (rt : runtime) (P B : string) :
  P <> "" -> B <> "" ->
  (forall (self : configuration_manager.ConfigManager) key w,
      configuration_manager.get self key VNone = VStr P ->
      configuration_manager.get self "paths.base_directory" (VStr ".") = VStr B ->
      configuration_manager.get_path self key w
        = (Ret (VStr (pathlib.str (pathlib.truediv (pathlib.Path B) (pathlib.Path P)))), w)) /\
  (forall (self : config_manager_01.ConfigManager) key w,
      config_manager_01.get self key VNone = VStr P ->
      config_manager_01.get self "paths.base_directory" VNone = VStr B ->
      config_manager_01.get_path rt self key w
        = (Ret (VStr (pathlib.str (pathlib.truediv (pathlib.Path B) (pathlib.Path P)))), w)) /\
  (pathlib.is_absolute (pathlib.Path P) = true ->
   pathlib.str (pathlib.truediv (pathlib.Path B) (pathlib.Path P))
     = pathlib.str (pathlib.Path P) /\
   (pathlib.normal P ->
    pathlib.str (pathlib.truediv (pathlib.Path B) (pathlib.Path P)) = P)) /\
  (pathlib.is_absolute (pathlib.Path P) = false ->
   pathlib.normal P -> pathlib.normal B -> P <> "." -> B <> "." ->
   pathlib.str (pathlib.truediv (pathlib.Path B) (pathlib.Path P)) = posixpath.join B P).
Proof.
  intros HP HB. split; [| split; [| split]].
  - intros self key w. apply get_path_json_resolves. exact HP.
  - intros self key w. apply get_path_01_resolves; assumption.
  - intros Habs. unfold pathlib.truediv. rewrite Habs.
    split; [reflexivity | intros Hnormal; exact Hnormal].
  - apply join_of_normal.
Qed.

Lemma get_path_resolution_witness :
  config_manager_01.get_path standard_runtime maps_instance "paths.maps" empty_world
    = (Ret (VStr "/srv/wind/output/maps"), empty_world) /\
  posixpath.join "/srv/wind" "output/maps" = "/srv/wind/output/maps".
Proof.
  destruct (get_path_resolution standard_runtime "output/maps" "/srv/wind")
    as (_ & H01 & _ & Hjoin); [discriminate | discriminate |].
  split.
  - rewrite (H01 maps_instance "paths.maps" empty_world eq_refl eq_refl). reflexivity.
  - rewrite <- Hjoin; [reflexivity | reflexivity | reflexivity | reflexivity
                      | discriminate | discriminate].
Defined.

(** * Further properties of the code *)

(** ** The launchers *)

Lemma terminal_status (analysis : child) (w : world) :
  (fst (run_analysis_terminal.script analysis w) = 0 \/
   fst (run_analysis_terminal.script analysis w) = 1) /\
  (fst (run_analysis_terminal.script analysis w) = 0 ->
   exists output text w1,
     analysis (run_analysis_terminal.start w) = (Exited output text 0, w1)).
Proof.
  unfold run_analysis_terminal.script, run_analysis_terminal.main,
    run_analysis_terminal.start.
  unfold bind, print, exists_, ret, chdir.
  destruct (path_exists run_analysis_terminal.venv_python _); cbn [negb];
    [| split; [auto | discriminate]].
  destruct (path_exists run_analysis_terminal.analysis_script _); cbn [negb];
    [| split; [auto | discriminate]].
  match goal with
  | |- context [bool_decide ?P] => destruct (bool_decide P)
  end; [| split; [auto | discriminate]].
  match goal with
  | |- context [analysis ?w0] =>
      destruct (analysis w0) as [[output text returncode | | e] w1] eqn:Hrun
  end; try (split; [auto | discriminate]).
  destruct (for_each_print output w1) as (w2 & Hprint & _).
  unfold print in Hprint. rewrite Hprint.
  destruct (Z.eqb returncode 0) eqn:Hcode; [| split; [auto | discriminate]].
  split; [auto |]. intros _. apply Z.eqb_eq in Hcode. subst returncode. eauto.
Qed.

Lemma standalone_status (analysis : child) (w : world) :
  (fst (run_analysis_05.script analysis w) = 0 \/
   fst (run_analysis_05.script analysis w) = 1) /\
  (fst (run_analysis_05.script analysis w) = 0 ->
   exists output w1,
     analysis (run_analysis_05.start (set_cwd run_analysis_05.PROJECT_DIR w))
       = (Exited output true 0, w1)).
Proof.
  unfold run_analysis_05.script, run_analysis_05.run_analysis, run_analysis_05.start.
  unfold try_finally, bind, print, exists_, ret, chdir, getcwd.
  match goal with
  | |- context [bool_decide ?P] => destruct (bool_decide P)
  end; [| split; [auto | discriminate]].
  destruct (path_exists run_analysis_05.VENV_PYTHON _); cbn [negb];
    [| split; [auto | discriminate]].
  destruct (path_exists run_analysis_05.ANALYSIS_SCRIPT _); cbn [negb];
    [| split; [auto | discriminate]].
  match goal with
  | |- context [bool_decide ?P] => destruct (bool_decide P)
  end; [| split; [auto | discriminate]].
  match goal with
  | |- context [analysis ?w0] =>
      destruct (analysis w0) as [[output [|] returncode | | e] w1] eqn:Hrun
  end;
    try (match goal with
         | |- context [bool_decide ?P] => destruct (bool_decide P)
         end; (split; [auto | discriminate])).
  - destruct (for_each_print output w1) as (w2 & Hprint & _).
    unfold print in Hprint. rewrite Hprint.
    destruct (Z.eqb returncode 0) eqn:Hcode;
      match goal with
      | |- context [bool_decide ?P] => destruct (bool_decide P)
      end; try (split; [auto | discriminate]; fail).
    split; [auto |]. intros _. apply Z.eqb_eq in Hcode. subst returncode. eauto.
  - destruct (for_each_print output w1) as (w2 & Hprint & _).
    unfold print in Hprint. rewrite Hprint.
    match goal with
    | |- context [bool_decide ?P] => destruct (bool_decide P)
    end; (split; [auto | discriminate]).
Qed.

(** X1: Whatever the child does and however it ends, each launcher exits with
    status 0 or 1, and with 0 only when the child, started in the world
    the launcher starts it in, exited there with code 0 (and, for
    [run_analysis_05.py], wrote nothing but text). *)
Theorem launcher_status_zero_or_one (analysis : child) (w : world) :
  ((fst (run_analysis_terminal.script analysis w) = 0 \/
    fst (run_analysis_terminal.script analysis w) = 1) /\
   (fst (run_analysis_terminal.script analysis w) = 0 ->
    exists output text w1,
      analysis (run_analysis_terminal.start w) = (Exited output text 0, w1))) /\
  ((fst (run_analysis_05.script analysis w) = 0 \/
    fst (run_analysis_05.script analysis w) = 1) /\
   (fst (run_analysis_05.script analysis w) = 0 ->
    exists output w1,
      analysis (run_analysis_05.start (set_cwd run_analysis_05.PROJECT_DIR w))
        = (Exited output true 0, w1))).
Proof. split; [apply terminal_status | apply standalone_status]. Qed.

(** X2: [run_analysis] of [run_analysis_05.py] puts the working directory
    back: whenever it returns, on any path, the process is in the
    directory it was called in.  A child process cannot move its parent,
    which is the hypothesis.  [main] of [run_analysis_terminal.py] has no
    such step and, once it has started the child, stays in the project
    directory. *)
Theorem run_analysis_restores_cwd (analysis : child) (w : world) :
  (forall w0, cwd (snd (analysis w0)) = cwd w0) ->
  (forall code w',
      run_analysis_05.run_analysis analysis w = (Ret code, w') -> cwd w' = cwd w) /\
  (forall code w',
      run_analysis_terminal.main analysis w = (Ret code, w') ->
      path_exists run_analysis_terminal.venv_python w
        && path_exists run_analysis_terminal.analysis_script w = true ->
      cwd w' = "/home/chawas/deployed/charara").
Proof.
  intros Hchild. split.
  - intros code w'. unfold run_analysis_05.run_analysis.
    unfold try_finally, bind, print, exists_, ret, chdir, getcwd. simpl.
    destruct (path_exists run_analysis_05.VENV_PYTHON _); simpl;
      [| intros [= _ <-]; reflexivity].
    destruct (path_exists run_analysis_05.ANALYSIS_SCRIPT _); simpl;
      [| intros [= _ <-]; reflexivity].
    destruct (bool_decide (run_analysis_05.PROJECT_DIR ∈ dirs w)); simpl;
      [| discriminate].
    match goal with
    | |- context [analysis ?w0] =>
        pose proof (Hchild w0) as Hcwd;
        destruct (analysis w0) as [[output [|] returncode | | e] w1]
    end; simpl in Hcwd; simpl.
    + destruct (for_each_print output w1) as (w2 & Hprint & _ & Hdirs & Hcwd2).
      unfold print in Hprint. rewrite Hprint.
      destruct (Z.eqb returncode 0); simpl;
        match goal with
        | |- context [bool_decide ?P] => destruct (bool_decide P)
        end; simpl; intros [= _ <-]; reflexivity.
    + destruct (for_each_print output w1) as (w2 & Hprint & _ & Hdirs & Hcwd2).
      unfold print in Hprint. rewrite Hprint. simpl.
      match goal with
      | |- context [bool_decide ?P] => destruct (bool_decide P)
      end; simpl; intros [= _ <-]; reflexivity.
    + match goal with
      | |- context [bool_decide ?P] => destruct (bool_decide P)
      end; simpl; intros [= _ <-]; reflexivity.
    + match goal with
      | |- context [bool_decide ?P] => destruct (bool_decide P)
      end; simpl; intros [= _ <-]; reflexivity.
  - intros code w'. unfold run_analysis_terminal.main.
    unfold bind, print, exists_, ret, chdir. simpl.
    destruct (path_exists run_analysis_terminal.venv_python _); simpl;
      [| intros _; discriminate].
    destruct (path_exists run_analysis_terminal.analysis_script _); simpl;
      [| intros _; discriminate].
    destruct (bool_decide _); simpl; [| discriminate].
    match goal with
    | |- context [analysis ?w0] =>
        pose proof (Hchild w0) as Hcwd;
        destruct (analysis w0) as [[output text returncode | | e] w1]
    end; simpl in Hcwd; simpl.
    + destruct (for_each_print output w1) as (w2 & Hprint & _ & _ & Hcwd2).
      unfold print in Hprint. rewrite Hprint.
      destruct (Z.eqb returncode 0); simpl; intros [= _ <-] _; simpl; congruence.
    + intros [= _ <-] _. simpl. exact Hcwd.
    + intros [= _ <-] _. simpl. exact Hcwd.
Qed.

Lemma run_analysis_restores_cwd_witness :
  cwd (snd (run_analysis_05.run_analysis (exits_with 3) launch_world)) = "/" /\
  cwd (snd (run_analysis_terminal.main (exits_with 3) launch_world))
    = "/home/chawas/deployed/charara".
Proof.
  destruct (run_analysis_restores_cwd (exits_with 3) launch_world (fun w0 => eq_refl))
    as [Hback Hstay].
  split.
  - apply (Hback 1). apply pair_eta. vm_compute. reflexivity.
  - apply (Hstay 1); [apply pair_eta; vm_compute; reflexivity | reflexivity].
Defined.

(** X3: When the interpreter or the analysis script is missing, neither
    launcher starts the child: the result is the same for every child, the
    code is 1, and no file, directory or working directory has changed. *)
Theorem launcher_precondition_missing (analysis : child) (w : world) :
  path_exists run_analysis_terminal.venv_python w
    && path_exists run_analysis_terminal.analysis_script w = false ->
  (exists w',
      run_analysis_terminal.main analysis w = (Ret 1, w') /\
      (forall other : child, run_analysis_terminal.main other w = (Ret 1, w')) /\
      files w' = files w /\ dirs w' = dirs w /\ cwd w' = cwd w) /\
  (exists w',
      run_analysis_05.run_analysis analysis w = (Ret 1, w') /\
      (forall other : child, run_analysis_05.run_analysis other w = (Ret 1, w')) /\
      files w' = files w /\ dirs w' = dirs w /\ cwd w' = cwd w).
Proof.
  intros Hmissing. split.
  - unfold run_analysis_terminal.main.
    unfold bind, print, exists_, ret. simpl.
    change (path_exists run_analysis_terminal.venv_python
              (add_stdout rule
                 (add_stdout "LAKE KARIBA WIND ANALYSIS - TERMINAL LAUNCHER"
                    (add_stdout rule w))))
      with (path_exists run_analysis_terminal.venv_python w).
    destruct (path_exists run_analysis_terminal.venv_python w); simpl.
    + simpl in Hmissing.
      match goal with
      | |- context [path_exists run_analysis_terminal.analysis_script ?w0] =>
          change (path_exists run_analysis_terminal.analysis_script w0)
            with (path_exists run_analysis_terminal.analysis_script w)
      end.
      rewrite Hmissing. simpl. eexists. repeat split.
    + eexists. repeat split.
  - unfold run_analysis_05.run_analysis.
    unfold bind, print, exists_, ret. simpl.
    change (path_exists run_analysis_05.VENV_PYTHON
              (add_stdout rule
                 (add_stdout "LAKE KARIBA WIND ANALYSIS - STANDALONE RUNNER"
                    (add_stdout rule w))))
      with (path_exists run_analysis_terminal.venv_python w).
    destruct (path_exists run_analysis_terminal.venv_python w); simpl.
    + simpl in Hmissing.
      match goal with
      | |- context [path_exists run_analysis_05.ANALYSIS_SCRIPT ?w0] =>
          change (path_exists run_analysis_05.ANALYSIS_SCRIPT w0)
            with (path_exists run_analysis_terminal.analysis_script w)
      end.
      rewrite Hmissing. simpl. eexists. repeat split.
    + eexists. repeat split.
Qed.

Lemma launcher_precondition_missing_witness :
  fst (run_analysis_terminal.main (exits_with 0) empty_world) = Ret 1 /\
  fst (run_analysis_05.run_analysis (exits_with 0) empty_world) = Ret 1.
Proof.
  destruct (launcher_precondition_missing (exits_with 0) empty_world eq_refl)
    as ((w1 & H1 & _) & (w2 & H2 & _)).
  rewrite H1, H2. split; reflexivity.
Defined.

(** ** The years of the analysis period *)

Lemma range_length (start stop : Z) : length (range start stop) = Z.to_nat (stop - start).
Proof. unfold range. rewrite length_map, length_seq. reflexivity. Qed.

Lemma range_lookup (start stop : Z) (i : nat) :
  (i < Z.to_nat (stop - start))%nat -> range start stop !! i = Some (start + Z.of_nat i).
Proof.
  intros Hi. unfold range. rewrite list_lookup_fmap.
  rewrite lookup_seq_lt by exact Hi. reflexivity.
Qed.

Lemma range_elem (start stop y : Z) : y ∈ range start stop <-> start <= y < stop.
Proof.
  unfold range. rewrite list_elem_of_fmap. split.
  - intros (i & -> & Hi). apply elem_of_seq in Hi. lia.
  - intros Hy. exists (Z.to_nat (y - start)). split; [lia |].
    apply elem_of_seq. lia.
Qed.

(** X4: [years] of [config_manager.py], when both years of the period are
    integers: the call returns, changes nothing, and the list holds the
    years from the first to the last, both included, in ascending order
    and once each; it is empty when the last year is before the first. *)
Theorem years_inclusive (self : config_manager.ConfigManager) (w : world)
    (d period : gmap string value) (first last : Z) :
  config_manager.config self = VDict d ->
  d !! "analysis_period" = Some (VDict period) ->
  period !! "start_year" = Some (VInt first) ->
  period !! "end_year" = Some (VInt last) ->
  exists l,
    config_manager.years self w = (Ret l, w) /\
    length l = Z.to_nat (last - first + 1) /\
    (forall i, (i < length l)%nat -> l !! i = Some (first + Z.of_nat i)) /\
    (forall y, y ∈ l <-> first <= y <= last) /\
    (last < first -> l = []).
Proof.
  intros Hd Hperiod Hfirst Hlast.
  exists (range first (last + 1)).
  split; [| split; [| split; [| split]]].
  - unfold config_manager.years, config_manager.start_year, config_manager.end_year.
    unfold bind, getitem, index, index_plus_one, ret.
    rewrite Hd, Hperiod, Hfirst, Hlast. reflexivity.
  - rewrite range_length. f_equal. lia.
  - intros i Hi. rewrite range_length in Hi. apply range_lookup. exact Hi.
  - intros y. rewrite range_elem. lia.
  - intros Hempty. apply length_zero_iff_nil. rewrite range_length. lia.
Qed.

Lemma start_year_only_run_returns :
  match fst start_year_only_run with Ret _ => True | _ => False end.
Proof. vm_compute. exact I. Qed.

Lemma years_inclusive_witness :
  option_map (fun self => fst (config_manager.years self empty_world))
    (returned start_year_only_run)
  = Some (Ret [2018; 2019; 2020]).
Proof.
  pose proof start_year_only_run_returns as Hreturns.
  unfold returned.
  destruct start_year_only_run as [[self | e | c] w'] eqn:Hrun; simpl in *;
    try contradiction.
  apply init_yaml_config in Hrun. destruct Hrun as (w1 & Hload).
  destruct (load_config_yaml_document standard_runtime "/etc/kariba.yaml"
              start_year_only_world (VDict start_year_only) eq_refl) as (w2 & Hdoc).
  change (pathlib.str (pathlib.Path "/etc/kariba.yaml")) with "/etc/kariba.yaml" in Hload.
  rewrite Hdoc in Hload. injection Hload as Hconfig _.
  destruct (years_inclusive self empty_world _
              (list_to_map [("start_year", VInt 2018); ("end_year", VInt 2020);
                            ("years", config_manager.ints [2015; 2016; 2017; 2018; 2019; 2020])])
              2018 2020 (eq_sym Hconfig))
    as (l & Hyears & Hlength & Hnth & _).
  - rewrite merge_lookup. reflexivity.
  - reflexivity.
  - reflexivity.
  - rewrite Hyears. simpl. do 2 f_equal.
    destruct l as [| a [| b [| c [| x l]]]]; try discriminate Hlength.
    pose proof (Hnth 0%nat ltac:(simpl; lia)) as H0.
    pose proof (Hnth 1%nat ltac:(simpl; lia)) as H1.
    pose proof (Hnth 2%nat ltac:(simpl; lia)) as H2.
    injection H0 as ->. injection H1 as ->. injection H2 as ->. reflexivity.
Defined.

(** ** Loading and saving in [config_manager_01.py] *)

(** X5: [load_config] of [config_manager_01.py] on a path at which nothing
    exists: the call returns the module's default tree and logs that the
    file was not found.  When the path can be written, the file then holds
    the default tree, and loading it again gives the same tree and leaves
    the file alone; when it cannot, no file has changed and the failure is
    logged. *)
Theorem load_config_01_missing_file (config_file : string) (w : world) :
  path_exists config_file w = false ->
  exists w',
    config_manager_01.load_config config_file w
      = (Ret config_manager_01.default_config, w') /\
    (ERROR, "Config file not found: " +:+ config_file) ∈ log w' /\
    dirs w' = dirs w /\
    (writable w config_file = true ->
     files w' = <[config_file := Document config_manager_01.default_config]> (files w) /\
     exists w'',
       config_manager_01.load_config config_file w'
         = (Ret config_manager_01.default_config, w'') /\
       files w'' = files w') /\
    (writable w config_file = false ->
     files w' = files w /\ (ERROR, "Could not save default config") ∈ log w').
Proof.
  intros Habsent.
  unfold config_manager_01.load_config at 1. unfold try_except at 1.
  unfold bind at 1. unfold exists_. rewrite Habsent. simpl.
  unfold bind at 1. unfold config_manager_01.logger at 1, log_at. simpl.
  unfold config_manager_01.create_default_config, try_except, bind, open_write,
    config_manager_01.logger, log_at, ret, writable. simpl.
  assert (Hdirs : bool_decide (config_file ∈ dirs w) = false).
  { unfold path_exists in Habsent. destruct (files w !! config_file); [discriminate |].
    exact Habsent. }
  rewrite Hdirs.
  destruct (bool_decide (config_file ∈ denied w)); simpl.
  - eexists. split; [reflexivity |]. simpl.
    split; [rewrite !elem_of_app, !list_elem_of_singleton; auto |].
    split; [reflexivity |].
    split; [discriminate |].
    intros _. split; [reflexivity |].
    rewrite !elem_of_app, !list_elem_of_singleton. auto.
  - eexists. split; [reflexivity |]. simpl.
    split; [rewrite !elem_of_app, !list_elem_of_singleton; auto |].
    split; [reflexivity |].
    split; [| discriminate].
    intros _. split; [reflexivity |].
    eexists. split.
    + apply load_config_01_document. simpl. apply lookup_insert_eq.
    + reflexivity.
Qed.

Lemma load_config_01_missing_file_witness :
  returned (config_manager_01.load_config "/etc/wind.json" empty_world)
    = Some config_manager_01.default_config.
Proof.
  destruct (load_config_01_missing_file "/etc/wind.json" empty_world eq_refl)
    as (w' & Hload & _).
  unfold returned. rewrite Hload. reflexivity.
Defined.


(** ** Validation in [config_manager_01.py] *)

Lemma str_not_empty (p : pathlib.PurePath) :
  (forall x, x ∈ pathlib.parts p -> x <> "") -> pathlib.str p <> "".
Proof.
  destruct p as [r ps]. unfold pathlib.str. simpl. intros Hparts.
  destruct r as [| c r]; [| discriminate].
  destruct ps as [| x ps]; [discriminate |].
  assert (Hx : x <> "") by (apply Hparts; left).
  destruct ps as [| y ps]; simpl.
  - exact Hx.
  - destruct x; [congruence | discriminate].
Qed.

Lemma str_truediv_not_empty (B P : string) :
  pathlib.str (pathlib.truediv (pathlib.Path B) (pathlib.Path P)) <> "".
Proof.
  apply str_not_empty. intros x Hx.
  unfold pathlib.truediv in Hx.
  destruct (pathlib.is_absolute (pathlib.Path P)).
  - apply (parts_good P x Hx).
  - cbn [pathlib.parts] in Hx. apply elem_of_app in Hx as [Hx | Hx].
    + apply (parts_good B x Hx).
    + apply (parts_good P x Hx).
Qed.

Lemma str_Path_not_empty (P : string) : pathlib.str (pathlib.Path P) <> "".
Proof. apply str_not_empty. intros x Hx. apply (parts_good P x Hx). Qed.

Lemma truthy_VStr (s : string) : s <> "" -> truthy (VStr s) = true.
Proof. intros Hs. simpl. apply String.eqb_neq in Hs. rewrite Hs. reflexivity. Qed.

(** What [get_path] of [config_manager_01.py] answers does not depend on
    the world. *)
Lemma get_path_01_value (rt : runtime) (self : config_manager_01.ConfigManager)
    (key : string) :
  exists v,
    (forall w, exists w',
        config_manager_01.get_path rt self key w = (Ret v, w') /\
        files w' = files w /\ dirs w' = dirs w) /\
    (truthy v = true -> truthy (config_manager_01.get self key VNone) = true) /\
    (forall P B,
        P <> "" -> B <> "" ->
        config_manager_01.get self key VNone = VStr P ->
        config_manager_01.get self "paths.base_directory" VNone = VStr B ->
        truthy v = true).
Proof.
  unfold config_manager_01.get_path, try_except, bind, config_manager_01.logger, log_at,
    as_path, ret, raise.
  destruct (truthy (config_manager_01.get self key VNone)) eqn:Hkey; simpl.
  - destruct (pathlib.is_absolute
                (pathlib.Path (py_str rt (config_manager_01.get self key VNone))))
      eqn:Habs; simpl.
    + eexists. split; [intros w; eexists; repeat split |]. split; [reflexivity |].
      intros P B HP HB HkeyP Hbase. rewrite HkeyP, py_str_VStr.
      apply truthy_VStr. apply str_Path_not_empty.
    + destruct (truthy (config_manager_01.get self "paths.base_directory" VNone))
        eqn:Hbase; simpl.
      * destruct (config_manager_01.get self "paths.base_directory" VNone) eqn:Hb; simpl;
          try (eexists; split; [intros w; eexists; repeat split |];
               split; [reflexivity |]; intros P B HP HB HkeyP HbaseB; discriminate HbaseB).
        eexists. split; [intros w; eexists; repeat split |]. split; [reflexivity |].
        intros P B HP HB HkeyP HbaseB. apply truthy_VStr.
        rewrite HkeyP, py_str_VStr. apply str_truediv_not_empty.
      * eexists. split; [intros w; eexists; repeat split |]. split; [reflexivity |].
        intros P B HP HB HkeyP HbaseB. rewrite HbaseB in Hbase.
        rewrite (truthy_VStr B HB) in Hbase. discriminate Hbase.
  - exists VNone. split; [intros w; eexists; repeat split |]. split; [discriminate |].
    intros P B HP HB HkeyP _. rewrite HkeyP, (truthy_VStr P HP) in Hkey. discriminate Hkey.
Qed.

Lemma for_each_logger_01 (lines : list string) (f : string -> string) (l : level) (w : world) :
  exists w',
    for_each lines (fun line => config_manager_01.logger l (f line)) w = (Ret tt, w') /\
    files w' = files w /\ dirs w' = dirs w /\
    exists records, log w' = log w ++ records.
Proof.
  revert w. induction lines as [| line lines IH]; intros w; simpl.
  - exists w. repeat split. exists []. rewrite app_nil_r. reflexivity.
  - unfold bind at 1. unfold config_manager_01.logger at 1, log_at.
    match goal with
    | |- context [for_each lines ?body ?w0] =>
        destruct (IH w0) as (w' & -> & Hfiles & Hdirs & records & Hlog)
    end.
    exists w'. split; [reflexivity |].
    destruct (Z.ltb (levelno l) (levelno INFO)).
    + repeat split; try assumption. eauto.
    + simpl in Hlog. repeat split; try assumption.
      exists ((l, f line) :: records). rewrite Hlog, <- app_assoc. reflexivity.
Qed.

Lemma validate_01_cases (rt : runtime) (self : config_manager_01.ConfigManager) (w : world) :
  exists b w',
    config_manager_01.validate rt self w = (Ret b, w') /\
    files w' = files w /\ dirs w' = dirs w /\
    (b = true ->
     forall field, field ∈ config_manager_01.required ++ config_manager_01.path_fields ->
                   truthy (config_manager_01.get self field VNone) = true) /\
    (b = false -> (ERROR, "Configuration validation failed:") ∈ log w') /\
    ((forall field, field ∈ config_manager_01.required ->
                    truthy (config_manager_01.get self field VNone) = true) ->
     (exists B, config_manager_01.get self "paths.base_directory" VNone = VStr B /\ B <> "") ->
     (exists P, config_manager_01.get self "output.base" VNone = VStr P /\ P <> "") ->
     b = true).
Proof.
  unfold config_manager_01.validate.
  set (errors := flat_map _ config_manager_01.required).
  assert (Herrors : errors = [] <->
                    forall field, field ∈ config_manager_01.required ->
                                  truthy (config_manager_01.get self field VNone) = true).
  { subst errors. generalize config_manager_01.required as fields.
    induction fields as [| field fields IH]; simpl.
    - split; [intros _ field Hin; inversion Hin | reflexivity].
    - destruct (truthy (config_manager_01.get self field VNone)) eqn:Hfield; simpl.
      + rewrite IH. split.
        * intros Hall f Hf. apply elem_of_cons in Hf as [-> | Hf]; [exact Hfield | auto].
        * intros Hall f Hf. apply Hall. right. exact Hf.
      + split; [discriminate |]. intros Hall.
        rewrite (Hall field) in Hfield by left. discriminate Hfield. }
  destruct (get_path_01_value rt self "paths.base_directory") as (v1 & Hrun1 & Hv1 & Hres1).
  destruct (get_path_01_value rt self "output.base") as (v2 & Hrun2 & Hv2 & Hres2).
  destruct (Hrun1 w) as (w1 & Hget1 & Hfiles1 & Hdirs1).
  destruct (Hrun2 w1) as (w2 & Hget2 & Hfiles2 & Hdirs2).
  assert (Hpaths : config_manager_01.path_errors rt self config_manager_01.path_fields w
                   = (Ret (if truthy v1
                           then (if truthy v2 then []
                                 else ["Invalid or missing path: output.base"])
                           else "Invalid or missing path: paths.base_directory"
                                :: (if truthy v2 then []
                                    else ["Invalid or missing path: output.base"])), w2)).
  { unfold config_manager_01.path_fields. cbn [config_manager_01.path_errors].
    unfold bind. rewrite Hget1. cbv beta iota. rewrite Hget2. cbv beta iota.
    unfold ret. destruct (truthy v1), (truthy v2); reflexivity. }
  rewrite (bind_Ret _ _ _ _ _ Hpaths).
  destruct errors as [| error errors].
  - destruct (truthy v1) eqn:Ht1; [destruct (truthy v2) eqn:Ht2 |].
    + simpl. unfold bind, config_manager_01.logger, log_at, ret. simpl.
      eexists. eexists. split; [reflexivity |]. simpl.
      split; [congruence |]. split; [congruence |].
      split; [| split; [discriminate | reflexivity]].
      intros _ field Hfield.
      change (field ∈ config_manager_01.required ++ config_manager_01.path_fields) in Hfield.
      apply elem_of_app in Hfield as [Hfield | Hfield].
      * apply (proj1 Herrors eq_refl field Hfield).
      * apply elem_of_cons in Hfield as [-> | Hfield]; [auto |].
        apply list_elem_of_singleton in Hfield as ->. auto.
    + simpl. unfold bind, config_manager_01.logger, log_at, ret. simpl.
      eexists. eexists. split; [reflexivity |]. simpl.
      split; [congruence |]. split; [congruence |].
      split; [discriminate |]. split.
      * intros _. rewrite !elem_of_app, !list_elem_of_singleton. auto.
      * intros _ (B & HB & HBne) (P & HP & HPne).
        pose proof (Hres2 P B HPne HBne HP HB) as Hyes. congruence.
    + assert (Hfalse : (exists B, config_manager_01.get self "paths.base_directory" VNone
                                  = VStr B /\ B <> "") -> False).
      { intros (B & HB & HBne). pose proof (Hres1 B B HBne HBne HB HB) as Hyes.
        congruence. }
      destruct (truthy v2); simpl; unfold bind, config_manager_01.logger, log_at, ret; simpl;
        (eexists; eexists; split; [reflexivity |]; simpl;
         split; [congruence |]; split; [congruence |];
         split; [discriminate |]; split;
         [intros _; rewrite !elem_of_app, !list_elem_of_singleton; auto
         | intros _ HB _; destruct (Hfalse HB)]).
  - cbn [app]. cbv iota.
    match goal with
    | |- context [for_each ?lines _] => set (all := lines)
    end.
    assert (Hfirst : config_manager_01.logger ERROR "Configuration validation failed:" w2
                     = (Ret tt, add_log (ERROR, "Configuration validation failed:") w2))
      by reflexivity.
    rewrite (bind_Ret _ _ _ _ _ Hfirst).
    destruct (for_each_logger_01 all (fun e => "  - " +:+ e) ERROR
                (add_log (ERROR, "Configuration validation failed:") w2))
      as (w3 & Hloop & Hfiles3 & Hdirs3 & records & Hlog3).
    rewrite (bind_Ret _ _ _ _ _ Hloop). unfold ret.
    eexists. eexists. split; [reflexivity |].
    simpl in Hfiles3, Hdirs3, Hlog3.
    split; [congruence |]. split; [congruence |].
    split; [discriminate |]. split.
    + intros _. rewrite Hlog3, !elem_of_app, !list_elem_of_singleton. auto.
    + intros Hall _ _. apply Herrors in Hall. discriminate Hall.
Qed.

(** X7: [validate] of [config_manager_01.py] never raises and changes no file
    or directory.  It answers [True] only if every required field and both
    path fields hold a true value in the tree, and it does answer [True]
    when every required field is true and the base directory and the
    top-level [output.base] are non-empty strings; with [False] an error is
    logged. *)
Theorem validate_01_answer (rt : runtime) (self : config_manager_01.ConfigManager)
    (w : world) :
  exists b w',
    config_manager_01.validate rt self w = (Ret b, w') /\
    files w' = files w /\ dirs w' = dirs w /\
    (b = true ->
     forall field, field ∈ config_manager_01.required ++ config_manager_01.path_fields ->
                   truthy (config_manager_01.get self field VNone) = true) /\
    (b = false -> (ERROR, "Configuration validation failed:") ∈ log w') /\
    ((forall field, field ∈ config_manager_01.required ->
                    truthy (config_manager_01.get self field VNone) = true) ->
     (exists B, config_manager_01.get self "paths.base_directory" VNone = VStr B /\ B <> "") ->
     (exists P, config_manager_01.get self "output.base" VNone = VStr P /\ P <> "") ->
     b = true).
Proof. apply validate_01_cases. Qed.

Lemma validate_01_answer_witness :
  fst (config_manager_01.validate standard_runtime valid_instance empty_world) = Ret true.
Proof.
  destruct (validate_01_answer standard_runtime valid_instance empty_world)
    as (b & w' & Hrun & _ & _ & _ & _ & Hcomplete).
  rewrite Hrun. simpl. f_equal. apply Hcomplete.
  - intros field Hfield. unfold config_manager_01.required in Hfield.
    repeat (apply elem_of_cons in Hfield as [-> | Hfield]; [vm_compute; reflexivity |]).
    inversion Hfield.
  - exists "/srv/wind". split; [vm_compute; reflexivity | discriminate].
  - exists "output". split; [vm_compute; reflexivity | discriminate].
Defined.

(** X8: [validate] looks the output directory up under the top-level key
    [output], where the default tree of the module has none (it keeps it
    under [paths]): for every tree without a top-level [output] entry, the
    default tree included, [validate] answers [False].  So it does when
    the latitude or the longitude is zero, which it takes for missing. *)
Theorem validate_01_rejects (rt : runtime) (self : config_manager_01.ConfigManager)
    (w : world) (d : gmap string value) :
  config_manager_01.config self = VDict d ->
  d !! "output" = None \/
  (exists location v,
      d !! "location" = Some (VDict location) /\
      (location !! "latitude" = Some v \/ location !! "longitude" = Some v) /\
      truthy v = false) ->
  exists w', config_manager_01.validate rt self w = (Ret false, w').
Proof.
  intros Hconfig Hcase.
  destruct (validate_01_cases rt self w) as (b & w' & Hrun & _ & _ & Htrue & _).
  exists w'. rewrite Hrun. destruct b; [| reflexivity].
  specialize (Htrue eq_refl).
  destruct Hcase as [Houtput | (location & v & Hlocation & [Hzero | Hzero] & Hfalsy)].
  - assert (Hin : "output.base"
                  ∈ config_manager_01.required ++ config_manager_01.path_fields)
      by (rewrite elem_of_app; right; right; left).
    specialize (Htrue _ Hin).
    unfold config_manager_01.get in Htrue. rewrite Hconfig in Htrue.
    change (split "." "output.base") with ["output"; "base"] in Htrue.
    simpl in Htrue. rewrite Houtput in Htrue. discriminate Htrue.
  - assert (Hin : "location.latitude"
                  ∈ config_manager_01.required ++ config_manager_01.path_fields)
      by (rewrite elem_of_app; left; do 3 right; left).
    specialize (Htrue _ Hin).
    unfold config_manager_01.get in Htrue. rewrite Hconfig in Htrue.
    change (split "." "location.latitude") with ["location"; "latitude"] in Htrue.
    simpl in Htrue. rewrite Hlocation, Hzero in Htrue. congruence.
  - assert (Hin : "location.longitude"
                  ∈ config_manager_01.required ++ config_manager_01.path_fields)
      by (rewrite elem_of_app; left; do 4 right; left).
    specialize (Htrue _ Hin).
    unfold config_manager_01.get in Htrue. rewrite Hconfig in Htrue.
    change (split "." "location.longitude") with ["location"; "longitude"] in Htrue.
    simpl in Htrue. rewrite Hlocation, Hzero in Htrue. congruence.
Qed.

Lemma validate_01_rejects_witness :
  exists w',
    config_manager_01.validate standard_runtime default_instance empty_world
      = (Ret false, w').
Proof.
  apply (validate_01_rejects standard_runtime default_instance empty_world _ eq_refl).
  left. vm_compute. reflexivity.
Defined.

(** ** Output file names *)

Lemma get_path_01_shape (rt : runtime) (self : config_manager_01.ConfigManager)
    (key : string) (w : world) :
  exists v w',
    config_manager_01.get_path rt self key w = (Ret v, w') /\
    files w' = files w /\ dirs w' = dirs w /\
    (exists records, log w' = log w ++ records) /\
    (v = VNone \/ exists s, v = VStr s) /\
    (truthy (config_manager_01.get self key VNone) = false -> v = VNone).
Proof.
  assert (Hnil : exists records : list (level * string), log w = log w ++ records)
    by (exists []; rewrite app_nil_r; reflexivity).
  unfold config_manager_01.get_path, try_except, bind, config_manager_01.logger, log_at,
    as_path, ret, raise.
  destruct (truthy (config_manager_01.get self key VNone)); simpl.
  - destruct (pathlib.is_absolute _); simpl.
    + eexists. eexists. split; [reflexivity |]. repeat split; eauto. discriminate.
    + destruct (truthy (config_manager_01.get self "paths.base_directory" VNone)); simpl.
      * destruct (config_manager_01.get self "paths.base_directory" VNone); simpl;
          (eexists; eexists; split; [reflexivity |]; simpl; repeat split;
           eauto; discriminate).
      * eexists. eexists. split; [reflexivity |]. simpl. repeat split; eauto.
        discriminate.
  - eexists. eexists. split; [reflexivity |]. repeat split; eauto.
Qed.

(** X9: [get_output_filename] when the tree holds no output directory under
    the key asked for ([output.<subdirectory>], or [output.base] without a
    subdirectory).  In [config_manager_01.py] the call never raises,
    changes no file or directory and answers [None] or a string; without
    the directory it answers [None] and logs an error.  In
    [configuration_manager.py] the same call raises [TypeError]. *)
Theorem get_output_filename_without_directory (rt : runtime)
    (self : config_manager_01.ConfigManager)
    (other : configuration_manager.ConfigManager)
    (base_name extension : string) (subdirectory : option string) (w : world) :
  let key := match subdirectory with
             | Some (String c s) => "output." +:+ String c s
             | _ => "output.base"
             end in
  (exists v w',
      config_manager_01.get_output_filename rt self base_name extension subdirectory w
        = (Ret v, w') /\
      files w' = files w /\ dirs w' = dirs w /\
      (v = VNone \/ exists s, v = VStr s) /\
      (truthy (config_manager_01.get self key VNone) = false ->
       v = VNone /\
       exists message, (ERROR, "Cannot get output directory for " +:+ message) ∈ log w')) /\
  (truthy (configuration_manager.get other key VNone) = false ->
   configuration_manager.get_output_filename rt other base_name extension subdirectory w
     = (Raise TypeError, w)).
Proof.
  intros key. split.
  - unfold config_manager_01.get_output_filename.
    set (directory := match subdirectory with
                      | Some (String c s) => config_manager_01.get_path rt self _
                      | _ => config_manager_01.get_path rt self "output.base"
                      end).
    assert (Hdirectory : directory = config_manager_01.get_path rt self key).
    { subst directory key. destruct subdirectory as [[| c s] |]; reflexivity. }
    rewrite Hdirectory. clear directory Hdirectory.
    destruct (get_path_01_shape rt self key w)
      as (v & w1 & Hget & Hfiles & Hdirs & (records & Hlog) & Hshape & Hnone).
    unfold try_except. rewrite (bind_Ret _ _ _ _ _ Hget).
    destruct Hshape as [-> | (s & ->)].
    + simpl. unfold bind, config_manager_01.logger, log_at, ret. simpl.
      eexists. eexists. split; [reflexivity |]. simpl.
      split; [exact Hfiles |]. split; [exact Hdirs |]. split; [left; reflexivity |].
      intros _. split; [reflexivity |].
      eexists. rewrite elem_of_app, list_elem_of_singleton. right. reflexivity.
    + destruct (truthy (VStr s)) eqn:Htruthy; simpl negb; cbv iota.
      * unfold bind, os_path_join, ret.
        eexists. eexists. split; [reflexivity |].
        split; [exact Hfiles |]. split; [exact Hdirs |]. split; [right; eauto |].
        intros Hfalsy. apply Hnone in Hfalsy. discriminate Hfalsy.
      * unfold bind, config_manager_01.logger, log_at, ret. simpl.
        eexists. eexists. split; [reflexivity |]. simpl.
        split; [exact Hfiles |]. split; [exact Hdirs |]. split; [left; reflexivity |].
        intros _. split; [reflexivity |].
        eexists. rewrite elem_of_app, list_elem_of_singleton. right. reflexivity.
  - intros Hfalsy. unfold configuration_manager.get_output_filename.
    set (directory := match subdirectory with
                      | Some (String c s) => configuration_manager.get_path other _
                      | _ => configuration_manager.get_path other "output.base"
                      end).
    assert (Hdirectory : directory = configuration_manager.get_path other key).
    { subst directory key. destruct subdirectory as [[| c s] |]; reflexivity. }
    rewrite Hdirectory. clear directory Hdirectory.
    unfold configuration_manager.get_path. rewrite Hfalsy. reflexivity.
Qed.

Lemma get_output_filename_without_directory_witness :
  returned (config_manager_01.get_output_filename standard_runtime default_instance
              "wind_rose" "png" None empty_world) = Some VNone /\
  fst (configuration_manager.get_output_filename standard_runtime default_json_instance
         "wind_rose" "png" (Some "maps") empty_world) = Raise TypeError.
Proof.
  split.
  - destruct (get_output_filename_without_directory standard_runtime default_instance
                default_json_instance "wind_rose" "png" None empty_world)
      as ((v & w' & Hrun & _ & _ & _ & Hnone) & _).
    unfold returned. rewrite Hrun. simpl. f_equal.
    apply Hnone. vm_compute. reflexivity.
  - rewrite (proj2 (get_output_filename_without_directory standard_runtime default_instance
                      default_json_instance "wind_rose" "png" (Some "maps") empty_world)).
    + reflexivity.
    + vm_compute. reflexivity.
Defined.

(** ** Constructing the manager of [configuration_manager.py] *)










(** ** Finding and building the configuration in [config_manager.py] *)

Lemma first_existing_none (candidates : list pathlib.PurePath) (w : world) :
  (forall q, q ∈ candidates -> path_exists (pathlib.str q) w = false) ->
  config_manager.first_existing candidates w = (Ret None, w).
Proof.
  induction candidates as [| q candidates IH]; intros Hnone; simpl; [reflexivity |].
  unfold bind, exists_. rewrite (Hnone q) by left.
  apply IH. intros q' Hq'. apply Hnone. right. exact Hq'.
Qed.

Lemma first_existing_found (pre : list pathlib.PurePath) (p : pathlib.PurePath)
    (post : list pathlib.PurePath) (w : world) :
  (forall q, q ∈ pre -> path_exists (pathlib.str q) w = false) ->
  path_exists (pathlib.str p) w = true ->
  config_manager.first_existing (pre ++ p :: post) w = (Ret (Some p), w).
Proof.
  induction pre as [| q pre IH]; intros Hnone Hp; simpl.
  - unfold bind, exists_. rewrite Hp. reflexivity.
  - unfold bind, exists_. rewrite (Hnone q) by left.
    apply IH; [| exact Hp]. intros q' Hq'. apply Hnone. right. exact Hq'.
Qed.

(** X12: [_get_default_config_path] of [config_manager.py] takes the candidates
    in their order: [config/kariba_config.yaml], the same under [..], the
    file of the deployed project, the one beside the scripts.  The first
    that exists is returned, whatever exists further down the list, and
    nothing is created.  When none exists the directory [config] is made
    and the first candidate is returned, though no file is there yet; when
    that directory cannot be made, the exception leaves the function. *)
Theorem get_default_config_path_order (rt : runtime) (w : world) :
  (forall pre p post,
      config_manager.possible_paths rt = pre ++ p :: post ->
      (forall q, q ∈ pre -> path_exists (pathlib.str q) w = false) ->
      path_exists (pathlib.str p) w = true ->
      config_manager._get_default_config_path rt w = (Ret p, w)) /\
  ((forall q, q ∈ config_manager.possible_paths rt ->
              path_exists (pathlib.str q) w = false) ->
   if creatable w "config"
   then config_manager._get_default_config_path rt w
        = (Ret (pathlib.Path "config/kariba_config.yaml"),
           set_dirs ({["config"]} ∪ dirs w) w)
   else exists e, config_manager._get_default_config_path rt w = (Raise e, w)).
Proof.
  split.
  - intros pre p post Hlist Hnone Hp.
    unfold config_manager._get_default_config_path. rewrite Hlist.
    rewrite (bind_Ret _ _ _ _ _ (first_existing_found pre p post w Hnone Hp)).
    reflexivity.
  - intros Hnone.
    unfold config_manager._get_default_config_path.
    rewrite (bind_Ret _ _ _ _ _ (first_existing_none _ w Hnone)).
    change (pathlib.str (pathlib.parent (pathlib.Path "config/kariba_config.yaml")))
      with "config".
    destruct (creatable w "config") eqn:Hcreatable.
    + rewrite (bind_Ret _ _ _ _ _ (makedirs_creatable _ _ Hcreatable)). reflexivity.
    + destruct (makedirs_refused _ _ Hcreatable) as [e He].
      exists e. unfold bind. rewrite He. reflexivity.
Qed.

Lemma get_default_config_path_order_witness :
  fst (config_manager._get_default_config_path standard_runtime
         (world_with "/home/chawas/deployed/charara/config/kariba_config.yaml" Garbage))
  = Ret (pathlib.Path "/home/chawas/deployed/charara/config/kariba_config.yaml") /\
  fst (config_manager._get_default_config_path standard_runtime empty_world)
  = Ret (pathlib.Path "config/kariba_config.yaml").
Proof.
  split.
  - rewrite (proj1 (get_default_config_path_order standard_runtime _)
               [pathlib.Path "config/kariba_config.yaml";
                pathlib.Path "../config/kariba_config.yaml"]
               (pathlib.Path "/home/chawas/deployed/charara/config/kariba_config.yaml")
               [pathlib.Path "/home/chawas/deployed/charara/config/kariba_config.yaml"]).
    + reflexivity.
    + vm_compute. reflexivity.
    + intros q Hq.
      repeat (apply elem_of_cons in Hq as [-> | Hq]; [vm_compute; reflexivity |]).
      inversion Hq.
    + vm_compute. reflexivity.
  - pose proof (proj2 (get_default_config_path_order standard_runtime empty_world)) as H.
    change (creatable empty_world "config") with true in H.
    cbv iota in H. rewrite H; [reflexivity |].
    intros q Hq. unfold config_manager.possible_paths in Hq.
    repeat (apply elem_of_cons in Hq as [-> | Hq]; [vm_compute; reflexivity |]).
    inversion Hq.
Defined.

Lemma load_config_yaml_mapping (rt : runtime) (config_file : string) (w : world)
    (user_config : gmap string value) :
  files w !! config_file = Some (Document (VDict user_config)) ->
  user_config <> ∅ ->
  config_manager._load_config rt config_file w
    = (Ret (VDict (config_manager.merge (config_manager.default_entries (today rt))
                     user_config)),
       add_log (INFO, "Loaded configuration from " +:+ config_file) w).
Proof.
  intros H Hne.
  unfold config_manager._load_config, try_except, bind, exists_, path_exists, open_read,
    config_manager.logger, log_at.
  simpl. rewrite H. simpl. rewrite H. simpl.
  rewrite (bool_decide_eq_false_2 _ Hne). reflexivity.
Qed.

(** [_setup_paths] only reads the tree: it returns an instance or raises,
    and leaves the world as it was. *)
Lemma setup_paths_outcome (config_file : string) (c : value) (w : world) :
  (exists self, config_manager._setup_paths config_file c w = (Ret self, w)) \/
  (exists e, config_manager._setup_paths config_file c w = (Raise e, w)).
Proof.
  unfold config_manager._setup_paths, bind, getitem, as_path, config_manager.div_value,
    ret, raise.
  repeat (cbv beta iota;
          match goal with
          | |- context [match ?x with _ => _ end] =>
              first [is_var x; destruct x
                    | match x with _ !! _ => destruct x end]
          end;
          try (right; eauto; fail)).
  left. eauto.
Qed.

Lemma setup_paths_needs_output (config_file : string) (w : world)
    (self : config_manager.ConfigManager) (w' : world)
    (d paths o : gmap string value) (k : string) :
  config_manager._setup_paths config_file (VDict d) w = (Ret self, w') ->
  d !! "paths" = Some (VDict paths) ->
  paths !! "output" = Some (VDict o) ->
  k ∈ ["base"; "maps"; "timeseries"; "statistics"; "reports"; "clustering"; "validation"] ->
  exists s, o !! k = Some (VStr s).
Proof.
  intros H Hpaths Houtput Hk.
  unfold config_manager._setup_paths, bind, getitem, as_path, config_manager.div_value,
    ret, raise in H.
  rewrite Hpaths in H.
  cbv beta iota in H. rewrite Houtput in H.
  repeat (cbv beta iota in H;
          match type of H with
          | context [match ?x with _ => _ end] =>
              first [is_var x; destruct x
                    | match x with _ !! _ => destruct x eqn:? end]
          end;
          try discriminate H).
  repeat (apply elem_of_cons in Hk as [-> | Hk]; [eauto |]).
  inversion Hk.
Qed.

Lemma default_paths_section (created : string) :
  exists section, config_manager.default_entries created !! "paths" = Some (VDict section).
Proof. eexists. reflexivity. Qed.

(** X13: The merge of [config_manager.py] is one level deep, so a file that
    sets [paths.output] replaces the default output mapping as a whole.
    When the file's mapping lacks one of the seven directories
    [_setup_paths] reads from it, the constructor raises instead of
    falling back on the default for that directory, and it does so before
    any directory or file is touched. *)
Theorem init_yaml_partial_output (rt : runtime) (path : string) (w : world)
    (user_config paths output : gmap string value) (k : string) :
  files w !! pathlib.str (pathlib.Path path) = Some (Document (VDict user_config)) ->
  user_config !! "paths" = Some (VDict paths) ->
  paths !! "output" = Some (VDict output) ->
  k ∈ ["base"; "maps"; "timeseries"; "statistics"; "reports"; "clustering"; "validation"] ->
  output !! k = None ->
  exists e w',
    config_manager.__init__ rt (Some path) w = (Raise e, w') /\
    dirs w' = dirs w /\ files w' = files w.
Proof.
  intros Hfile Hpaths Houtput Hk Hmissing.
  assert (Hne : user_config <> ∅).
  { intros ->. rewrite lookup_empty in Hpaths. discriminate Hpaths. }
  unfold config_manager.__init__.
  unfold bind at 1. unfold ret at 1.
  rewrite (bind_Ret _ _ _ _ _ (load_config_yaml_mapping rt _ w user_config Hfile Hne)).
  set (w1 := add_log _ w).
  set (merged := config_manager.merge _ user_config).
  destruct (setup_paths_outcome (pathlib.str (pathlib.Path path)) (VDict merged) w1)
    as [(self & Hsetup) | (e & Hsetup)].
  - destruct (default_paths_section (today rt)) as (section & Hsection).
    assert (Hmerged : merged !! "paths" = Some (VDict (paths ∪ section))).
    { subst merged. rewrite merge_lookup, Hpaths, Hsection. reflexivity. }
    assert (Hunion : (paths ∪ section) !! "output" = Some (VDict output))
      by (apply lookup_union_Some_l; exact Houtput).
    destruct (setup_paths_needs_output _ _ _ _ _ _ _ k Hsetup Hmerged Hunion Hk)
      as (s & Hs).
    congruence.
  - exists e, w1. unfold bind. rewrite Hsetup. repeat split.
Qed.

Lemma init_yaml_partial_output_witness :
  exists e w',
    config_manager.__init__ standard_runtime (Some "/etc/kariba.yaml") output_base_only_world
      = (Raise e, w') /\
    dirs w' = dirs output_base_only_world /\ files w' = files output_base_only_world.
Proof.
  apply (init_yaml_partial_output standard_runtime "/etc/kariba.yaml" output_base_only_world
           (list_to_map [("paths", dict [("output", dict [("base", VStr "results")])])])
           (list_to_map [("output", dict [("base", VStr "results")])])
           (list_to_map [("base", VStr "results")])
           "maps").
  - reflexivity.
  - reflexivity.
  - reflexivity.
  - right. left.
  - reflexivity.
Defined.

(** ** Constructing the manager of [config_manager_01.py] twice *)







(** ** Dotted keys *)

Lemma split_app (sep : ascii) (a b : string) :
  split sep (a +:+ String sep b) = split sep a ++ split sep b.
Proof.
  induction a as [| c a IH].
  - simpl. rewrite Ascii.eqb_refl. reflexivity.
  - rewrite append_cons. simpl. rewrite IH.
    destruct (Ascii.eqb c sep); [reflexivity |].
    destruct (split sep a) as [| field fields] eqn:Hsplit; [| reflexivity].
    destruct (split_not_nil sep a Hsplit).
Qed.

Lemma configuration_manager_get_loop_app (v : value) (k1 k2 : list string)
    (default : value) :
  configuration_manager.get_loop v (k1 ++ k2) default
    = match walk_result v k1 with
      | Some x => configuration_manager.get_loop x k2 default
      | None => default
      end.
Proof.
  revert v. induction k1 as [| k k1 IH]; intros v; simpl; [reflexivity |].
  destruct v as [| b | n | m e | s | l | d]; try reflexivity.
  destruct (d !! k); [apply IH | reflexivity].
Qed.

Lemma config_manager_01_get_loop_app (v : value) (k1 k2 : list string) (default : value) :
  config_manager_01.get_loop v (k1 ++ k2) default
    = match walk_result v k1 with
      | Some x => config_manager_01.get_loop x k2 default
      | None => default
      end.
Proof.
  revert v. induction k1 as [| k k1 IH]; intros v; simpl; [reflexivity |].
  destruct v as [| b | n | m e | s | l | d]; try reflexivity.
  destruct (d !! k); [apply IH | reflexivity].
Qed.

Lemma walk_result_complete (v : value) (keys : list string) (r : option value) :
  walk v keys r -> walk_result v keys = r.
Proof. intros H. apply (walk_functional v keys _ _ (walk_result_spec v keys) H). Qed.

(** X15: [get] of [configuration_manager.py] and of [config_manager_01.py]
    composes along the dots: when the segments of [a] lead to a value [x]
    in the tree, looking up [a.b] is looking up [b] in [x]; when they lead
    nowhere, [a.b] gives the default, whatever [b] is. *)
Theorem get_composes (self : configuration_manager.ConfigManager)
    (self' : config_manager_01.ConfigManager) (a b : string) (default : value) :
  (forall x,
      walk (configuration_manager.config self) (split "." a) (Some x) ->
      configuration_manager.get self (a +:+ "." +:+ b) default
        = configuration_manager.get (configuration_manager.set_config x self) b default) /\
  (walk (configuration_manager.config self) (split "." a) None ->
   configuration_manager.get self (a +:+ "." +:+ b) default = default) /\
  (forall x,
      walk (config_manager_01.config self') (split "." a) (Some x) ->
      config_manager_01.get self' (a +:+ "." +:+ b) default
        = config_manager_01.get (config_manager_01.set_config x self') b default) /\
  (walk (config_manager_01.config self') (split "." a) None ->
   config_manager_01.get self' (a +:+ "." +:+ b) default = default).
Proof.
  unfold configuration_manager.get, config_manager_01.get.
  change (a +:+ "." +:+ b) with (a +:+ String "." b).
  rewrite split_app, configuration_manager_get_loop_app, config_manager_01_get_loop_app.
  repeat split.
  - intros x Hwalk. rewrite (walk_result_complete _ _ _ Hwalk). reflexivity.
  - intros Hwalk. rewrite (walk_result_complete _ _ _ Hwalk). reflexivity.
  - intros x Hwalk. rewrite (walk_result_complete _ _ _ Hwalk). reflexivity.
  - intros Hwalk. rewrite (walk_result_complete _ _ _ Hwalk). reflexivity.
Qed.

Lemma get_composes_witness :
  config_manager_01.get edited_instance "analysis_period.start_year" VNone = VInt 2001.
Proof.
  pose proof (proj1 (proj2 (proj2 (get_composes
                {| configuration_manager.config_file := "";
                   configuration_manager.config := VNone |}
                edited_instance "analysis_period" "start_year" VNone)))
                (dict [("start_year", VInt 2001); ("end_year", VInt 2002)])) as H.
  etransitivity; [apply H | reflexivity].
  eapply walk_into; [reflexivity | constructor].
Defined.

Lemma first_field_no_separator (sep : ascii) (s : string) :
  exists field fields, split sep s = field :: fields /\ has_char sep field = false.
Proof.
  destruct (split sep s) as [| field fields] eqn:Hsplit.
  - destruct (split_not_nil sep s Hsplit).
  - exists field, fields. split; [reflexivity |].
    apply (split_fields sep s). rewrite Hsplit. left.
Qed.

(** X16: An entry of the tree whose own key contains a dot cannot be reached:
    [get] of the three managers gives the same answer with the entry as
    without it, for every key and default. *)
Theorem get_ignores_dotted_entries (d : gmap string value) (k : string) (x : value)
    (key : string) (default : value) :
  has_char "." k = true ->
  configuration_manager.get_loop (VDict (<[k := x]> d)) (split "." key) default
    = configuration_manager.get_loop (VDict (delete k d)) (split "." key) default /\
  config_manager_01.get_loop (VDict (<[k := x]> d)) (split "." key) default
    = config_manager_01.get_loop (VDict (delete k d)) (split "." key) default /\
  config_manager.get_loop (VDict (<[k := x]> d)) (split "." key) default
    = config_manager.get_loop (VDict (delete k d)) (split "." key) default.
Proof.
  intros Hdot.
  destruct (first_field_no_separator "." key) as (field & fields & -> & Hfield).
  assert (Hne : k <> field) by (intros ->; congruence).
  simpl. rewrite lookup_insert_ne by exact Hne. rewrite lookup_delete_ne by exact Hne.
  repeat split.
Qed.

Lemma get_ignores_dotted_entries_witness :
  config_manager_01.get_loop (dict [("paths.logs", VStr "/var/log")])
    (split "." "paths.logs") VNone = VNone.
Proof.
  change (dict [("paths.logs", VStr "/var/log")])
    with (VDict (<["paths.logs" := VStr "/var/log"]> ∅)).
  rewrite (proj1 (proj2 (get_ignores_dotted_entries ∅ "paths.logs" (VStr "/var/log")
                           "paths.logs" VNone eq_refl))).
  reflexivity.
Defined.

(** ** Backing up and reloading in [config_manager.py] *)

Lemma overlay_idempotent (default_value user_value : option value) :
  overlay default_value (overlay default_value user_value)
    = overlay default_value user_value.
Proof.
  destruct user_value as [[| b | n | m e | s | l | entries] |];
    destruct default_value as [[| b' | n' | m' e' | s' | l' | section] |];
    simpl; try reflexivity.
  - rewrite <- (assoc (∪) entries section section), (idemp (∪) section). reflexivity.
  - rewrite (idemp (∪) section). reflexivity.
Qed.

(** Merging a merged tree into the defaults again gives it back. *)
Lemma merge_idempotent (default user_config : gmap string value) :
  config_manager.merge default (config_manager.merge default user_config)
    = config_manager.merge default user_config.
Proof.
  apply map_eq. intros key. rewrite !merge_lookup. apply overlay_idempotent.
Qed.

Lemma merge_default_not_empty (created : string) (user_config : gmap string value) :
  config_manager.merge (config_manager.default_entries created) user_config <> ∅.
Proof.
  intros Hempty.
  assert (H : config_manager.merge (config_manager.default_entries created) user_config
              !! "paths" = None) by (rewrite Hempty; apply lookup_empty).
  rewrite merge_lookup in H.
  destruct (default_paths_section created) as (section & Hsection).
  rewrite Hsection in H.
  destruct (user_config !! "paths") as [[| b | n | m e | s | l | entries] |];
    discriminate H.
Qed.

(** X17: [save_config_copy] of [config_manager.py], when it returns: the path it
    answers is the one asked for, or [config_backup.yaml] in the output
    directory when none was given; that file holds the tree of the
    instance and no other file has changed.  For a tree that this module
    loaded, loading the backup gives the same tree again and leaves the
    backup as written. *)
Theorem save_config_copy_reload (rt : runtime) (self : config_manager.ConfigManager)
    (output_path : option string) (w : world) (p : pathlib.PurePath) (w1 : world)
    (user_config : gmap string value) :
  config_manager.config self
    = VDict (config_manager.merge (config_manager.default_entries (today rt)) user_config) ->
  config_manager.save_config_copy self output_path w = (Ret p, w1) ->
  p = match output_path with
      | None => pathlib.truediv (config_manager.output_dir self)
                  (pathlib.Path "config_backup.yaml")
      | Some s => pathlib.Path s
      end /\
  files w1 = <[pathlib.str p := Document (config_manager.config self)]> (files w) /\
  exists w2,
    config_manager._load_config rt (pathlib.str p) w1
      = (Ret (config_manager.config self), w2) /\
    files w2 = files w1.
Proof.
  intros Hconfig Hsave.
  unfold config_manager.save_config_copy in Hsave.
  set (target := match output_path with
                 | None => pathlib.truediv _ _
                 | Some s => pathlib.Path s
                 end) in *.
  apply bind_Ret_inv in Hsave. destruct Hsave as ([] & wa & Hmkdir & Hsave).
  apply bind_Ret_inv in Hsave. destruct Hsave as ([] & wb & Hwrite & Hsave).
  apply bind_Ret_inv in Hsave. destruct Hsave as ([] & wc & Hlog & Hsave).
  unfold ret in Hsave. injection Hsave as <- <-.
  assert (Hfa : files wa = files w).
  { unfold makedirs in Hmkdir.
    destruct (bool_decide _); [discriminate Hmkdir |].
    destruct (files w !! _); [discriminate Hmkdir |].
    injection Hmkdir as <-. reflexivity. }
  assert (Hfb : files wb = <[pathlib.str target := Document (config_manager.config self)]>
                             (files wa)).
  { unfold open_write in Hwrite.
    do 2 (match type of Hwrite with
          | context [bool_decide ?P] => destruct (bool_decide P); [discriminate Hwrite |]
          end).
    injection Hwrite as <-. reflexivity. }
  assert (Hfc : files wc = files wb).
  { unfold config_manager.logger, log_at in Hlog. injection Hlog as <-. reflexivity. }
  split; [reflexivity |].
  split; [congruence |].
  assert (Hfile : files wc !! pathlib.str target
                  = Some (Document (VDict (config_manager.merge
                                             (config_manager.default_entries (today rt))
                                             user_config)))).
  { rewrite Hfc, Hfb, Hconfig. apply lookup_insert_eq. }
  rewrite (load_config_yaml_mapping rt _ wc _ Hfile (merge_default_not_empty _ _)).
  rewrite merge_idempotent, Hconfig.
  eexists. split; reflexivity.
Qed.

Lemma save_config_copy_reload_witness :
  option_map
    (fun self =>
       option_map pathlib.str
         (returned (config_manager.save_config_copy self (Some "/tmp/backup.yaml")
                      empty_world)))
    (returned start_year_only_run)
  = Some (Some "/tmp/backup.yaml").
Proof.
  pose proof start_year_only_run_returns as Hreturns.
  unfold returned at 2.
  destruct start_year_only_run as [[self | e | c] w'] eqn:Hrun; simpl in Hreturns;
    try contradiction.
  apply init_yaml_config in Hrun. destruct Hrun as (w1 & Hload).
  destruct (load_config_yaml_document standard_runtime "/etc/kariba.yaml"
              start_year_only_world (VDict start_year_only) eq_refl) as (w2 & Hdoc).
  change (pathlib.str (pathlib.Path "/etc/kariba.yaml")) with "/etc/kariba.yaml" in Hload.
  rewrite Hdoc in Hload. injection Hload as Hconfig _.
  assert (Hsave : fst (config_manager.save_config_copy self (Some "/tmp/backup.yaml")
                         empty_world) = Ret (pathlib.Path "/tmp/backup.yaml"))
    by (vm_compute; reflexivity).
  apply pair_eta in Hsave.
  destruct (save_config_copy_reload standard_runtime self (Some "/tmp/backup.yaml")
              empty_world _ _ start_year_only (eq_sym Hconfig) Hsave)
    as (_ & _ & w3 & _ & _).
  simpl. unfold returned. rewrite Hsave. reflexivity.
Defined.

(** ** Constructing the manager of [config_manager.py] twice *)

Lemma for_each_mkdir_inv (l : list pathlib.PurePath) (w w1 : world) :
  for_each l (fun directory => makedirs (pathlib.str directory)) w = (Ret tt, w1) ->
  files w1 = files w /\ denied w1 = denied w /\ log w1 = log w /\
  (forall p, p ∈ dirs w1 <-> p ∈ dirs w \/ p ∈ map pathlib.str l) /\
  (forall q, q ∈ l -> creatable w (pathlib.str q) = true).
Proof.
  intros Hrun.
  assert (Hall : forall q, q ∈ l -> creatable w (pathlib.str q) = true).
  { revert w Hrun. induction l as [| d l IH]; intros w Hrun q Hq.
    - inversion Hq.
    - cbn [for_each] in Hrun.
      destruct (creatable w (pathlib.str d)) eqn:Hd.
      + rewrite (bind_Ret _ _ _ _ _ (makedirs_creatable _ _ Hd)) in Hrun.
        apply elem_of_cons in Hq as [-> | Hq]; [exact Hd |].
        apply (IH _ Hrun q Hq).
      + destruct (makedirs_refused _ _ Hd) as [e He].
        unfold bind in Hrun. rewrite He in Hrun. discriminate Hrun. }
  destruct (for_each_mkdir_created l w Hall) as (w' & Hrun' & Hf & Hn & Hl & Hd).
  rewrite Hrun in Hrun'. injection Hrun' as <-.
  repeat split; try assumption; apply Hd.
Qed.

(** X18: [_create_directories] of [config_manager.py] can be run again: after a
    pass that returned, every directory of the instance exists, and a
    second pass returns as well, creating nothing and changing no file. *)
Theorem create_directories_again (self : config_manager.ConfigManager) (w w1 : world) :
  config_manager._create_directories self w = (Ret tt, w1) ->
  (forall d, d ∈ config_manager.directories self -> pathlib.str d ∈ dirs w1) /\
  exists w2,
    config_manager._create_directories self w1 = (Ret tt, w2) /\
    dirs w2 = dirs w1 /\ files w2 = files w1.
Proof.
  unfold config_manager._create_directories. intros Hrun.
  apply bind_Ret_inv in Hrun. destruct Hrun as ([] & wa & Hloop & Hlog).
  unfold config_manager.logger, log_at in Hlog. injection Hlog as <-.
  destruct (for_each_mkdir_inv _ _ _ Hloop) as (Hf & Hn & _ & Hdirs & Hall).
  split.
  - intros d Hd. simpl. apply Hdirs. right.
    apply list_elem_of_fmap. exists d. split; [reflexivity | exact Hd].
  - destruct (for_each_mkdir_created (config_manager.directories self)
                (add_log (INFO, "Created all necessary directories") wa))
      as (wb & Hagain & Hfb & Hnb & _ & Hdirsb).
    { intros q Hq. rewrite <- (Hall q Hq). apply creatable_ext; simpl; assumption. }
    rewrite (bind_Ret _ _ _ _ _ Hagain).
    eexists. split; [reflexivity |]. simpl. split; [| exact Hfb].
    apply set_eq. intros p. rewrite Hdirsb. simpl. split; [| auto].
    intros [Hp | Hp]; [exact Hp |]. apply Hdirs. right. exact Hp.
Qed.

Lemma first_pass_returns : fst first_pass = Ret tt.
Proof. vm_compute. reflexivity. Qed.

Lemma create_directories_again_witness :
  exists w2,
    config_manager._create_directories served_instance (snd first_pass) = (Ret tt, w2) /\
    dirs w2 = dirs (snd first_pass) /\ files w2 = files (snd first_pass).
Proof.
  apply (create_directories_again served_instance empty_world (snd first_pass)).
  apply (pair_eta first_pass). exact first_pass_returns.
Defined.












(** ** Saving and loading in [configuration_manager.py] *)

(** X20: [save_config] of [configuration_manager.py] followed by [load_config]
    of the same path: when the save returns, the file holds the tree of
    the instance, no other file has changed, and the load returns that
    tree, entry for entry, leaving files and directories as they are. *)
Theorem save_then_load_json (self : configuration_manager.ConfigManager) (w w1 : world) :
  configuration_manager.save_config self w = (Ret tt, w1) ->
  files w1 = <[configuration_manager.config_file self :=
                 Document (configuration_manager.config self)]> (files w) /\
  dirs w1 = dirs w /\
  exists w2,
    configuration_manager.load_config (configuration_manager.config_file self) w1
      = (Ret (configuration_manager.config self), w2) /\
    files w2 = files w1 /\ dirs w2 = dirs w1.
Proof.
  unfold configuration_manager.save_config. intros Hsave.
  apply bind_Ret_inv in Hsave. destruct Hsave as ([] & wa & Hwrite & Hprint).
  unfold print in Hprint. injection Hprint as <-.
  unfold open_write in Hwrite.
  do 2 (match type of Hwrite with
        | context [bool_decide ?P] => destruct (bool_decide P); [discriminate Hwrite |]
        end).
  injection Hwrite as <-. simpl.
  split; [reflexivity |]. split; [reflexivity |].
  unfold configuration_manager.load_config, try_except, bind, open_read, json_load, print,
    ret. simpl.
  rewrite lookup_insert_eq. simpl.
  eexists. split; [reflexivity |]. split; reflexivity.
Qed.

Lemma edited_json_save_returns : fst edited_json_save = Ret tt.
Proof. vm_compute. reflexivity. Qed.

Lemma save_then_load_json_witness :
  exists w2,
    configuration_manager.load_config "/etc/wind.json" (snd edited_json_save)
      = (Ret (configuration_manager.config edited_json_instance), w2) /\
    files w2 = files (snd edited_json_save) /\ dirs w2 = dirs (snd edited_json_save).
Proof.
  apply (save_then_load_json edited_json_instance empty_world (snd edited_json_save)).
  apply (pair_eta edited_json_save). exact edited_json_save_returns.
Defined.
